(** * Couler: template registry and step assembly (core/run_templates.py)
    and the SQL escaping of steps/sqlflow.py.

    Python values are embedded as the inductive [value]; the process-wide
    mutable module [states] is the record [wstate], threaded through a small
    state-and-exception monad [M] in which a raised exception keeps the state
    reached so far (as Python's globals do). *)

From Stdlib Require Import String Ascii List Bool Arith Lia ZArith.
From Stdlib Require Import Decimal DecimalNat.
Set Warnings "-register-all".
Import ListNotations.
Open Scope string_scope.
Open Scope list_scope.

(** ** Strings and the Python [str.replace] used by [escape_sql] *)

Definition dquote : ascii := ascii_of_nat 34.
Definition bslash : ascii := ascii_of_nat 92.
Definition backtick : ascii := ascii_of_nat 96.
Definition dollar : ascii := ascii_of_nat 36.

(** [s.replace(old, new)] for a one-character [old]: every occurrence of
    [old] is replaced by [new], scanning left to right. *)
Fixpoint str_replace1 (old : ascii) (new s : string) : string :=
  match s with
  | EmptyString => EmptyString
  | String c r =>
      if Ascii.eqb c old then (new ++ str_replace1 old new r)%string
      else String c (str_replace1 old new r)
  end.

(** [escape_sql] of steps/sqlflow.py:
    [original_sql.replace('\\', '\\\\').replace('"', r'\"')
       .replace("`", r'\`').replace("$", r'\$')] *)
Definition escape_sql (original_sql : string) : string :=
  str_replace1 dollar (String bslash (String dollar EmptyString))
    (str_replace1 backtick (String bslash (String backtick EmptyString))
      (str_replace1 dquote (String bslash (String dquote EmptyString))
        (str_replace1 bslash (String bslash (String bslash EmptyString))
          original_sql))).

(** ** Decimal rendering of line numbers and instance counters *)

Fixpoint string_of_uint (d : uint) : string :=
  match d with
  | Nil => EmptyString
  | D0 r => String "0" (string_of_uint r)
  | D1 r => String "1" (string_of_uint r)
  | D2 r => String "2" (string_of_uint r)
  | D3 r => String "3" (string_of_uint r)
  | D4 r => String "4" (string_of_uint r)
  | D5 r => String "5" (string_of_uint r)
  | D6 r => String "6" (string_of_uint r)
  | D7 r => String "7" (string_of_uint r)
  | D8 r => String "8" (string_of_uint r)
  | D9 r => String "9" (string_of_uint r)
  end.

(** Python's [str(n)] on a non-negative int. *)
Definition str_nat (n : nat) : string := string_of_uint (Nat.to_uint n).

(** ** Python values and output proxies (core/templates/output.py) *)

(** The [Output] subclasses: a plain parameter, a script result, an
    artifact ([OutputArtifact]) and a Kubernetes job ([OutputJob]). *)
Inductive out_kind := KParameter | KScript | KArtifact | KJob.

Record output := mk_output {
  o_kind : out_kind;
  o_step : option string;   (* producing step name; Python may pass None *)
  o_template : string;
  o_field : string
}.

Inductive value :=
| VStr (s : string)
| VInt (z : Z)
| VList (l : list value)
| VOut (o : output).

(** [isinstance(arg, (OutputArtifact, OutputJob))] *)
Definition is_artifact_or_job (o : output) : bool :=
  match o_kind o with KArtifact | KJob => true | _ => false end.

(** ** YAML documents, as returned by [yaml.safe_load] *)

Inductive yval :=
| YNull
| YStr (s : string)
| YInt (z : Z)
| YList (l : list yval)
| YMap (kv : list (string * yval)).

(** ** Templates (core/templates), steps and the workflow state *)

Inductive template :=
| Script (name image : string) (command : option string) (source : string)
| Container (name image : string) (command : option string)
    (args : option value) (output : option value) (input : list value)
| Job (name : string) (args : list value) (manifest : yval)
    (set_owner_reference : bool) (success_condition failure_condition : string).

Definition template_name (t : template) : string :=
  match t with
  | Script n _ _ _ | Container n _ _ _ _ _ | Job n _ _ _ _ _ => n
  end.

Record step := mk_step {
  s_name : string;
  s_template : string;
  s_args : option value;
  s_deps : list output;     (* proxies the step depends on *)
  s_inputs : list output    (* artifact / resource proxies required as inputs *)
}.

(** The module [states]: the template registry of [states.workflow] (an
    ordered dict), its ordered step list, [_outputs_tmp] and
    [_steps_outputs] (a dict whose key is the [step_name] variable, which
    may be None). *)
Record wstate := mk_wstate {
  templates : list (string * template);
  steps : list step;
  outputs_tmp : option (list value);
  steps_outputs : list (option string * list output)
}.

Inductive err :=
| MissingSourceError      (* ValueError("Input script can not be null") *)
| MissingManifestError    (* ValueError("Input manifest can not be null") *)
| DuplicateTemplateError
| InvalidArgumentError
| KeyError
| TypeError
| AttributeError.

(** ** The state-and-exception monad *)

Inductive outcome (A : Type) :=
| Ret (a : A)
| Raise (e : err).
Arguments Ret {A} a.
Arguments Raise {A} e.

Definition M (A : Type) := wstate -> wstate * outcome A.

Definition ret {A} (a : A) : M A := fun st => (st, Ret a).
Definition raise {A} (e : err) : M A := fun st => (st, Raise e).
Definition bind {A B} (m : M A) (k : A -> M B) : M B :=
  fun st => match m st with
            | (st', Ret a) => k a st'
            | (st', Raise e) => (st', Raise e)
            end.
Definition get : M wstate := fun st => (st, Ret st).
Definition put (st : wstate) : M unit := fun _ => (st, Ret tt).
Definition lift {A} (o : outcome A) : M A := fun st => (st, o).

Notation "x <- m ;; k" := (bind m (fun x => k))
  (at level 61, m at next level, right associativity).
Notation "m ;; k" := (bind m (fun _ => k))
  (at level 61, right associativity).

Definition obind {A B} (o : outcome A) (k : A -> outcome B) : outcome B :=
  match o with Ret a => k a | Raise e => Raise e end.

(** ** Equality tests (Python [==] on the embedded values) *)

Definition out_kind_eqb (a b : out_kind) : bool :=
  match a, b with
  | KParameter, KParameter | KScript, KScript
  | KArtifact, KArtifact | KJob, KJob => true
  | _, _ => false
  end.

Definition opt_str_eqb (a b : option string) : bool :=
  match a, b with
  | Some x, Some y => String.eqb x y
  | None, None => true
  | _, _ => false
  end.

Definition output_eqb (a b : output) : bool :=
  out_kind_eqb (o_kind a) (o_kind b) && opt_str_eqb (o_step a) (o_step b)
  && String.eqb (o_template a) (o_template b)
  && String.eqb (o_field a) (o_field b).

Fixpoint value_eqb (a b : value) : bool :=
  match a, b with
  | VStr x, VStr y => String.eqb x y
  | VInt x, VInt y => Z.eqb x y
  | VOut x, VOut y => output_eqb x y
  | VList xs, VList ys =>
      (fix go (xs ys : list value) : bool :=
         match xs, ys with
         | [], [] => true
         | x :: xs', y :: ys' => value_eqb x y && go xs' ys'
         | _, _ => false
         end) xs ys
  | _, _ => false
  end.

Fixpoint yval_eqb (a b : yval) : bool :=
  match a, b with
  | YNull, YNull => true
  | YStr x, YStr y => String.eqb x y
  | YInt x, YInt y => Z.eqb x y
  | YList xs, YList ys =>
      (fix go (xs ys : list yval) : bool :=
         match xs, ys with
         | [], [] => true
         | x :: xs', y :: ys' => yval_eqb x y && go xs' ys'
         | _, _ => false
         end) xs ys
  | YMap xs, YMap ys =>
      (fix go (xs ys : list (string * yval)) : bool :=
         match xs, ys with
         | [], [] => true
         | (k, x) :: xs', (k', y) :: ys' =>
             String.eqb k k' && yval_eqb x y && go xs' ys'
         | _, _ => false
         end) xs ys
  | _, _ => false
  end.

Definition opt_eqb {A} (f : A -> A -> bool) (a b : option A) : bool :=
  match a, b with
  | Some x, Some y => f x y
  | None, None => true
  | _, _ => false
  end.

Definition list_eqb {A} (f : A -> A -> bool) : list A -> list A -> bool :=
  fix go xs ys :=
    match xs, ys with
    | [], [] => true
    | x :: xs', y :: ys' => f x y && go xs' ys'
    | _, _ => false
    end.

Definition template_eqb (a b : template) : bool :=
  match a, b with
  | Script n i c s, Script n' i' c' s' =>
      String.eqb n n' && String.eqb i i' && opt_str_eqb c c' && String.eqb s s'
  | Container n i c ar o inp, Container n' i' c' ar' o' inp' =>
      String.eqb n n' && String.eqb i i' && opt_str_eqb c c'
      && opt_eqb value_eqb ar ar' && opt_eqb value_eqb o o'
      && list_eqb value_eqb inp inp'
  | Job n ar m so sc fc, Job n' ar' m' so' sc' fc' =>
      String.eqb n n' && list_eqb value_eqb ar ar' && yval_eqb m m'
      && Bool.eqb so so' && String.eqb sc sc' && String.eqb fc fc'
  | _, _ => false
  end.

(** ** Python dicts as ordered association lists *)

Fixpoint assoc {K V} (eqb : K -> K -> bool) (k : K) (l : list (K * V))
  : option V :=
  match l with
  | [] => None
  | (k', v) :: r => if eqb k k' then Some v else assoc eqb k r
  end.

(** [d[k] = v]: an existing key keeps its position, a new key goes last. *)
Fixpoint dict_set {K V} (eqb : K -> K -> bool) (k : K) (v : V)
  (l : list (K * V)) : list (K * V) :=
  match l with
  | [] => [(k, v)]
  | (k', v') :: r =>
      if eqb k k' then (k, v) :: r else (k', v') :: dict_set eqb k v r
  end.

(** ** Workflow state accessors (core/states.py, core/workflow.py) *)

Definition set_templates (ts : list (string * template)) (st : wstate) :=
  mk_wstate ts (steps st) (outputs_tmp st) (steps_outputs st).
Definition set_steps (ss : list step) (st : wstate) :=
  mk_wstate (templates st) ss (outputs_tmp st) (steps_outputs st).
Definition set_outputs_tmp (p : option (list value)) (st : wstate) :=
  mk_wstate (templates st) (steps st) p (steps_outputs st).
Definition set_steps_outputs (so : list (option string * list output))
  (st : wstate) :=
  mk_wstate (templates st) (steps st) (outputs_tmp st) so.

(** [states.workflow.get_template(name)] *)
Definition get_template (st : wstate) (name : string) : option template :=
  assoc String.eqb name (templates st).

(** Modelled from the spec: [states.workflow.add_template] (core/workflow.py,
    absent here), after the spec's Template Registry contract: registration
    appends in order; re-registering an identical payload is a no-op and a
    different payload under a present name fails with
    [DuplicateTemplateError]. *)
Definition add_template (t : template) : M unit :=
  st <- get ;;
  match get_template st (template_name t) with
  | None => put (set_templates (templates st ++ [(template_name t, t)]) st)
  | Some t' => if template_eqb t t' then ret tt else raise DuplicateTemplateError
  end.

(** [states._steps_outputs[step_name] = rets] *)
Definition set_step_output (key : option string) (rets : list output) : M unit :=
  st <- get ;;
  put (set_steps_outputs (dict_set opt_str_eqb key rets (steps_outputs st)) st).

(** ** Call-site identity (core/pyfunc.py) *)

(** The static origin of a call: the enclosing function and the line. *)
Record call_site := mk_call_site { cs_function : string; cs_line : nat }.

Definition underscore : ascii := ascii_of_nat 95.
Definition period : ascii := ascii_of_nat 46.

(** Modelled from the spec: [pyfunc.argo_safe_name] (absent here), a
    deterministic sanitisation into the engine's identifier charset;
    underscores and periods become dashes. *)
Fixpoint argo_safe_name (s : string) : string :=
  match s with
  | EmptyString => EmptyString
  | String c r =>
      if Ascii.eqb c underscore || Ascii.eqb c period
      then String "-" (argo_safe_name r)
      else String c (argo_safe_name r)
  end.

(** Modelled from the spec: [pyfunc.invocation_location] (absent here); the
    name is derived from the defining function and the source line, so two
    call sites never share it and one call site always yields it. *)
Definition invocation_location (cs : call_site) : string * nat :=
  ((argo_safe_name (cs_function cs) ++ "-" ++ str_nat (cs_line cs))%string,
   cs_line cs).

(** Lines 46-51 / 119-124 / 220-225 of run_templates.py. *)
Definition resolve_func_name (cs : call_site) (step_name : option string)
  : string :=
  match step_name with
  | Some n => argo_safe_name n
  | None => fst (invocation_location cs)
  end.

(** ** The step assembler (core/step_update_utils.py) *)

Definition direct_outputs (v : value) : list output :=
  match v with VOut o => [o] | _ => [] end.

(** The proxies found in [args], looking one level into nested lists. *)
Definition arg_proxies (args : option value) : list output :=
  match args with
  | None => []
  | Some (VList l) =>
      flat_map (fun v => match v with
                         | VOut o => [o]
                         | VList l' => flat_map direct_outputs l'
                         | _ => []
                         end) l
  | Some v => direct_outputs v
  end.

Definition count_instances (tname : string) (ss : list step) : nat :=
  length (filter (fun s => String.eqb (s_template s) tname) ss).

(** The name of the [k]-th instance of a template: the first instance keeps
    the template's name, later ones get the suffix [-(k+1)] ("s1-2"). *)
Definition instance_name (tname : string) (k : nat) : string :=
  match k with
  | O => tname
  | S _ => (tname ++ "-" ++ str_nat (S k))%string
  end.

Definition producer_exists (ss : list step) (o : output) : bool :=
  match o_step o with
  | Some n => existsb (String.eqb n) (map s_name ss)
  | None => false
  end.

(** Spec step 3 of the assembler: missing [args] with a non-empty staging
    area take the staged proxies, and the staging area is cleared. *)
Definition staged_args (args : option value) (pending : option (list value))
  : option value * option (list value) :=
  match args, pending with
  | None, Some ((_ :: _) as l) => (Some (VList l), None)
  | _, p => (args, p)
  end.

(** Modelled from the spec: [step_update_utils.update_step] (absent here),
    after the spec's Step Graph Assembler contract: the step name follows the
    template identity with a per-template instance counter; the proxies in
    [args] (one nested level included) become dependencies and the
    artifact/resource ones required inputs, whose producing step must exist
    ([InvalidArgumentError]); if [args] was not supplied and the staging area
    is non-empty, the staged proxies are used and the staging area cleared;
    the step is appended and its name returned.  The explicit step name and
    the caller line enter only through [func_name], which already derives
    from them. *)
Definition update_step (func_name : string) (args : option value)
  (step_name : option string) (caller_line : nat) : M string :=
  st <- get ;;
  let '(args', pend) := staged_args args (outputs_tmp st) in
  let deps := arg_proxies args' in
  let ins := filter is_artifact_or_job deps in
  if forallb (producer_exists (steps st)) ins then
    let name := instance_name func_name (count_instances func_name (steps st)) in
    put (set_outputs_tmp pend
           (set_steps (steps st ++ [mk_step name func_name args' deps ins]) st)) ;;
    ret name
  else raise InvalidArgumentError.

(** ** Output proxies returned by the step calls (core/pyfunc.py) *)

(** Modelled from the spec: [pyfunc.script_output] (absent here): a script
    result proxy of the step. *)
Definition script_output (step_name : option string) (func_name : string)
  : list output :=
  [mk_output KScript step_name func_name "result"].

(** Modelled from the spec: [pyfunc.container_output] (absent here): one
    artifact proxy per declared output of the template, else a parameter
    proxy. *)
Definition container_output (step_name : option string) (func_name : string)
  (outs : option value) : list output :=
  match flat_map direct_outputs
          (match outs with Some (VList l) => l | Some v => [v] | None => [] end) with
  | [] => [mk_output KParameter step_name func_name "output"]
  | os => map (fun o => mk_output KArtifact step_name func_name (o_field o)) os
  end.

(** Modelled from the spec: [pyfunc.job_output] (absent here): the
    resource-reference proxies (job name and uid) of the step. *)
Definition job_output (step_name : option string) (func_name : string)
  : list output :=
  [mk_output KJob step_name func_name "job-name";
   mk_output KJob step_name func_name "job-id"].

(** [template.to_dict().get("outputs", None)] *)
Definition template_outputs (t : template) : option value :=
  match t with Container _ _ _ _ o _ => o | _ => None end.

(** What a step call returns: its output proxies. *)
Definition proxies := list output.

(** ** [run_script] (run_templates.py, lines 28-78) *)

Definition run_script (cs : call_site) (image : string) (command : option string)
  (source : option string) (step_name : option string) : M (list output) :=
  let '(_, caller_line) := invocation_location cs in
  let func_name := resolve_func_name cs step_name in
  st <- get ;;
  (match get_template st func_name with
   | None =>
       match source with
       | None => raise MissingSourceError
       | Some src => add_template (Script func_name image command src)
       end
   | Some _ => ret tt
   end) ;;
  sname <- update_step func_name None step_name caller_line ;;
  let rets := script_output (Some sname) func_name in
  set_step_output (Some sname) rets ;;
  ret rets.

(** ** [run_container] (run_templates.py, lines 81-190) *)

(** Lines 131-150: [args] after the fresh-registration normalisation. *)
Definition normalize_args (args : option value) (outputs_tmp : option (list value))
  : option value :=
  let args := match args, outputs_tmp with
              | None, Some _ => Some (VList [])
              | _, _ => args
              end in
  match args with
  | None => None
  | Some a =>
      let l := match a with VList l => l | _ => [a] end in
      let l := match l with
               | VList ((VOut _ :: _) as inner) :: _ => inner
               | _ => l
               end in
      let l := match outputs_tmp with Some t => l ++ t | None => l end in
      Some (VList l)
  end.

(** Lines 152-156: artifact and job proxies of [args] appended to [input]. *)
Definition mirror_artifacts (args : option value) (input : list value)
  : list value :=
  match args with
  | Some (VList l) =>
      input ++ filter (fun v => match v with
                                | VOut o => is_artifact_or_job o
                                | _ => false
                                end) l
  | _ => input
  end.

(** Lines 119-177: name resolution and, on first use of the name, template
    construction; returns the name, the line and the [args] handed on to
    [update_step]. *)
Definition run_container_prepare (cs : call_site) (image : string)
  (command : option string) (args output : option value)
  (input : option (list value)) (step_name : option string)
  : M (string * nat * option value) :=
  let '(_, caller_line) := invocation_location cs in
  let func_name := resolve_func_name cs step_name in
  st <- get ;;
  match get_template st func_name with
  | None =>
      let input := match input with Some i => i | None => [] end in
      let args := normalize_args args (outputs_tmp st) in
      let input := mirror_artifacts args input in
      add_template (Container func_name image command args output input) ;;
      ret (func_name, caller_line, args)
  | Some _ => ret (func_name, caller_line, args)
  end.

Definition run_container (cs : call_site) (image : string)
  (command : option string) (args output : option value)
  (input : option (list value)) (step_name : option string) : M proxies :=
  prep <- run_container_prepare cs image command args output input step_name ;;
  let '(func_name, caller_line, args) := prep in
  sname <- update_step func_name args step_name caller_line ;;
  st <- get ;;
  match get_template st func_name with
  | None => raise AttributeError
  | Some t =>
      let rets := container_output (Some sname) func_name (template_outputs t) in
      set_step_output (Some sname) rets ;;
      ret rets
  end.

(** ** [run_job] (run_templates.py, lines 193-271) *)

(** Rendering of a proxy into the engine's expression syntax. *)
Definition render (o : output) : string :=
  ("{{steps." ++ match o_step o with Some s => s | None => "None" end
   ++ ".outputs." ++ o_field o ++ "}}")%string.

Fixpoint yaml_of_value (v : value) : yval :=
  match v with
  | VStr s => YStr s
  | VInt z => YInt z
  | VOut o => YStr (render o)
  | VList l => YList (map yaml_of_value l)
  end.

Definition value_outputs (v : value) : list value :=
  match v with
  | VOut _ => [v]
  | VList l => filter (fun x => match x with VOut _ => true | _ => false end) l
  | _ => []
  end.

(** Modelled from the spec: [pyfunc.generate_parameters_run_job] (absent
    here): one generated environment entry [{name, value}] per entry of
    [env], the proxies among the values as the template's parameters and
    arguments. *)
Definition generate_parameters_run_job (env : option (list (string * value)))
  : list yval * list value * list value :=
  match env with
  | None => ([], [], [])
  | Some e =>
      (map (fun '(k, v) => YMap [("name", YStr k); ("value", yaml_of_value v)]) e,
       flat_map (fun '(_, v) => value_outputs v) e,
       flat_map (fun '(_, v) => value_outputs v) e)
  end.

(** Python's [key in x] for a loaded YAML value: key membership for a
    dict, element membership for a list, substring for a string; a
    TypeError otherwise. *)
Definition py_in (key : string) (x : yval) : outcome bool :=
  match x with
  | YMap kv => Ret (existsb (fun '(k, _) => String.eqb key k) kv)
  | YList l => Ret (existsb (yval_eqb (YStr key)) l)
  | YStr s => Ret (match String.index 0 key s with Some _ => true | None => false end)
  | _ => Raise TypeError
  end.

(** [x[key]] for a loaded YAML value with a string key. *)
Definition py_getitem (x : yval) (key : string) : outcome yval :=
  match x with
  | YMap kv => match assoc String.eqb key kv with
               | Some v => Ret v
               | None => Raise KeyError
               end
  | _ => Raise TypeError
  end.

(** [x[key] = v] for a loaded YAML value with a string key. *)
Definition py_setitem (x : yval) (key : string) (v : yval) : outcome yval :=
  match x with
  | YMap kv => Ret (YMap (dict_set String.eqb key v kv))
  | _ => Raise TypeError
  end.

Definition owner_label_value : string := "'{{pod.name}}'".

(** Lines 237-250, on the loaded manifest:
    [manifest_dict["spec"]["env"] = envs] and, when the metadata labels hold
    [argo.step.owner], that label set to ['{{pod.name}}']. *)
Definition patch_manifest (manifest_dict : yval) (envs : list yval)
  : outcome yval :=
  obind (py_getitem manifest_dict "spec") (fun spec =>
  obind (py_setitem spec "env" (YList envs)) (fun spec' =>
  obind (py_setitem manifest_dict "spec" spec') (fun md1 =>
  obind (py_getitem md1 "metadata") (fun meta =>
  obind (py_in "labels" meta) (fun has_labels =>
  if has_labels then
    obind (py_getitem meta "labels") (fun labels =>
    obind (py_in "argo.step.owner" labels) (fun has_owner =>
    if has_owner then
      obind (py_setitem labels "argo.step.owner" (YStr owner_label_value))
        (fun labels' =>
      obind (py_setitem meta "labels" labels') (fun meta' =>
      py_setitem md1 "metadata" meta'))
    else Ret md1))
  else Ret md1))))).

(** The manifest is embedded by its loaded YAML document: [yaml.safe_load]
    and [pyaml.dump] are taken as mutually inverse, so the template holds
    the document the dumped text denotes. *)
Definition run_job (cs : call_site) (manifest : option yval)
  (success_condition failure_condition : string) (step_name : option string)
  (env : option (list (string * value))) (set_owner_reference : bool)
  : M proxies :=
  match manifest with
  | None => raise MissingManifestError
  | Some manifest =>
      let '(_, caller_line) := invocation_location cs in
      let func_name := resolve_func_name cs step_name in
      st <- get ;;
      args <- (match get_template st func_name with
               | None =>
                   let env :=
                     match outputs_tmp st, env with
                     | Some t, Some e =>
                         Some (dict_set String.eqb "inferred_outputs" (VList t) e)
                     | _, _ => env
                     end in
                   let '(envs, _, args) := generate_parameters_run_job env in
                   manifest <- lift (match env with
                                     | None => Ret manifest
                                     | Some _ => patch_manifest manifest envs
                                     end) ;;
                   add_template (Job func_name args manifest set_owner_reference
                                   success_condition failure_condition) ;;
                   ret args
               | Some _ => ret []
               end) ;;
      _ <- update_step func_name (Some (VList args)) step_name caller_line ;;
      let rets := job_output step_name func_name in
      set_step_output step_name rets ;;
      ret rets
  end.

(** ** Repeated invocations of one call site *)

(** One invocation of a step-defining call, with its call-specific
    arguments; the call site and the explicit step name are shared. *)
Inductive step_call :=
| CScript (image : string) (command : option string) (source : option string)
| CContainer (image : string) (command : option string)
    (args output : option value) (input : option (list value))
| CJob (manifest : option yval) (success_condition failure_condition : string)
    (env : option (list (string * value))) (set_owner_reference : bool).

Definition run_call (cs : call_site) (step_name : option string)
  (c : step_call) : M proxies :=
  match c with
  | CScript image command source => run_script cs image command source step_name
  | CContainer image command args output input =>
      run_container cs image command args output input step_name
  | CJob manifest sc fc env own => run_job cs manifest sc fc step_name env own
  end.

(** The calls executed one after the other, as a loop body would. *)
Fixpoint run_calls (cs : call_site) (step_name : option string)
  (calls : list step_call) : M (list proxies) :=
  match calls with
  | [] => ret []
  | c :: rest =>
      r <- run_call cs step_name c ;;
      rs <- run_calls cs step_name rest ;;
      ret (r :: rs)
  end.

(** ** Observations used in the statements *)

Definition sql_special (c : ascii) : bool :=
  Ascii.eqb c bslash || Ascii.eqb c dquote || Ascii.eqb c backtick
  || Ascii.eqb c dollar.

Definition arg_elems (args : option value) : list value :=
  match args with
  | None => []
  | Some (VList l) => l
  | Some v => [v]
  end.

Definition container_args (t : template) : option value :=
  match t with Container _ _ _ a _ _ => a | _ => None end.

Definition container_input (t : template) : list value :=
  match t with Container _ _ _ _ _ i => i | _ => [] end.

(** The [args] [run_container] hands to [update_step] in state [st]. *)
Definition container_forwarded_args (st : wstate) (cs : call_site)
  (step_name : option string) (args : option value) : option value :=
  match get_template st (resolve_func_name cs step_name) with
  | None => normalize_args args (outputs_tmp st)
  | Some _ => args
  end.

Definition job_manifest (t : option template) : option yval :=
  match t with Some (Job _ _ m _ _ _) => Some m | _ => None end.

(** The environment mapping after line 230 ([inferred_outputs]). *)
Definition job_env (st : wstate) (env : option (list (string * value)))
  : option (list (string * value)) :=
  match outputs_tmp st, env with
  | Some t, Some e => Some (dict_set String.eqb "inferred_outputs" (VList t) e)
  | _, _ => env
  end.

Definition generated_envs (env : option (list (string * value))) : list yval :=
  fst (fst (generate_parameters_run_job env)).

(** What one successful step call does to the registry and the step list:
    it registers a template under [fn] exactly when none was there, and it
    appends one step of template [fn] carrying the next instance name. *)
Definition call_effect (fn : string) (st st' : wstate) : Prop :=
  (get_template st fn = None ->
     exists t, templates st' = templates st ++ [(fn, t)])
  /\ (get_template st fn <> None -> templates st' = templates st)
  /\ exists s, steps st' = steps st ++ [s] /\ s_template s = fn
       /\ s_name s = instance_name fn (count_instances fn (steps st)).

(** Whether the metadata carries a labels mapping with [argo.step.owner]. *)
Definition owner_label (meta : yval) : bool :=
  match meta with
  | YMap mkv =>
      match assoc String.eqb "labels" mkv with
      | Some (YMap lkv) =>
          existsb (fun '(k, _) => String.eqb "argo.step.owner" k) lkv
      | _ => false
      end
  | _ => false
  end.

(** [m'] is [m] with [spec.env] set to [envs] and, when the metadata
    labels carry [argo.step.owner], that label set to ['{{pod.name}}'];
    every other field as in [m]. *)
Definition manifest_patched (m m' : yval) (envs : list yval) : Prop :=
  exists kv kv' sp sp' md md',
    m = YMap kv /\ m' = YMap kv'
    /\ (forall k, k <> "spec" -> k <> "metadata" ->
          assoc String.eqb k kv' = assoc String.eqb k kv)
    /\ assoc String.eqb "spec" kv = Some (YMap sp)
    /\ assoc String.eqb "spec" kv' = Some (YMap sp')
    /\ assoc String.eqb "env" sp' = Some (YList envs)
    /\ (forall k, k <> "env" -> assoc String.eqb k sp' = assoc String.eqb k sp)
    /\ assoc String.eqb "metadata" kv = Some md
    /\ assoc String.eqb "metadata" kv' = Some md'
    /\ (owner_label md = false -> md' = md)
    /\ (owner_label md = true ->
        exists mkv mkv' lkv lkv',
          md = YMap mkv /\ md' = YMap mkv'
          /\ (forall k, k <> "labels" ->
                assoc String.eqb k mkv' = assoc String.eqb k mkv)
          /\ assoc String.eqb "labels" mkv = Some (YMap lkv)
          /\ assoc String.eqb "labels" mkv' = Some (YMap lkv')
          /\ assoc String.eqb "argo.step.owner" lkv' = Some (YStr owner_label_value)
          /\ (forall k, k <> "argo.step.owner" ->
                assoc String.eqb k lkv' = assoc String.eqb k lkv)).

(** ** [sqlflow] (steps/sqlflow.py, lines 14-46) *)

Definition newline : ascii := ascii_of_nat 10.
Definition slash : ascii := ascii_of_nat 47.

Fixpoint drop_while {A} (f : A -> bool) (l : list A) : list A :=
  match l with
  | [] => []
  | x :: r => if f x then drop_while f r else l
  end.

(** [os.path.dirname] (posixpath): [head = p[:p.rfind('/') + 1]], then
    [head.rstrip('/')] when [head] is non-empty and not made of slashes
    only. *)
Definition dirname (p : string) : string :=
  let head := List.rev (drop_while (fun c => negb (Ascii.eqb c slash))
                     (List.rev (list_ascii_of_string p))) in
  let head := match head with
              | [] => []
              | _ => if forallb (fun c => Ascii.eqb c slash) head then head
                     else List.rev (drop_while (fun c => Ascii.eqb c slash) (List.rev head))
              end in
  string_of_list_ascii head.

(** Lines 27-29: [exit_time_wait], rendered by ["%s" % exit_time_wait]:
    [str(0)] when [env] is not a dict, else
    [env.get("SQLFLOW_WORKFLOW_EXIT_TIME_WAIT", "0")]. The environment
    values are strings, for which ["%s"] is the identity. *)
Definition exit_time_wait (env : option (list (string * string))) : string :=
  match env with
  | Some e =>
      match assoc String.eqb "SQLFLOW_WORKFLOW_EXIT_TIME_WAIT" e with
      | Some v => v
      | None => "0"
      end
  | None => "0"
  end.

(** A text between double quotes. *)
Definition dq (s : string) : string :=
  String dquote (s ++ String dquote EmptyString).

(** Lines 22-40: the shell command of the step. [not log_file] holds for
    None and for the empty string. *)
Definition sqlflow_command (sql : string) (env : option (list (string * string)))
  (log_file : option string) : string :=
  match log_file with
  | None | Some EmptyString => ("step -e " ++ dq (escape_sql sql))%string
  | Some log_file =>
      String.concat EmptyString
        ["if [[ -f /opt/sqlflow/init_step_container.sh ]]; "
         ++ "then bash /opt/sqlflow/init_step_container.sh; fi";
         " && set -o pipefail";
         " && mkdir -p " ++ dirname log_file;
         " && (step -e " ++ dq (escape_sql sql) ++ " 2>&1 | tee " ++ log_file
           ++ ")";
         " && sleep " ++ exit_time_wait env]%string
  end.

(** Lines 14-46. [run_container] is called from inside [sqlflow], so its
    call site [cs] is the one [invocation_location] resolves for that call;
    [env], [secret] and [resources] go to fields of the container template
    that this development does not embed. [sqlflow] returns None. *)
Definition sqlflow (cs : call_site) (sql image : string)
  (env : option (list (string * string))) (log_file : option string) : M unit :=
  _ <- run_container cs image (Some (sqlflow_command sql env log_file))
         None None None None ;;
  ret tt.

(** ** The shell's reading of a double-quoted word *)

(** How bash reads the text after an opening double quote, up to the
    closing one: a backslash before a dollar, a backtick, a double quote or a
    backslash stands for that
    character, a backslash before a newline is removed with it, a backslash
    before any other character stands for itself. An unescaped [$] or [`]
    (an expansion; a lone [$] that bash would keep is refused as well) and
    a missing closing quote give None. Returns the word's value and the
    text after the closing quote. *)
Fixpoint dq_word (s : string) : option (string * string) :=
  match s with
  | EmptyString => None
  | String c r =>
      if Ascii.eqb c dquote then Some (EmptyString, r)
      else if Ascii.eqb c dollar || Ascii.eqb c backtick then None
      else if Ascii.eqb c bslash then
        match r with
        | EmptyString => None
        | String d r' =>
            if Ascii.eqb d newline then dq_word r'
            else if sql_special d then
              option_map (fun '(w, rest) => (String d w, rest)) (dq_word r')
            else option_map (fun '(w, rest) => (String c w, rest)) (dq_word r)
        end
      else option_map (fun '(w, rest) => (String c w, rest)) (dq_word r)
  end.

(** Each of the four special characters prefixed by one backslash. *)
Fixpoint escape_each (s : string) : string :=
  match s with
  | EmptyString => EmptyString
  | String c r =>
      if sql_special c then String bslash (String c (escape_each r))
      else String c (escape_each r)
  end.

Definition container_command (t : template) : option string :=
  match t with Container _ _ c _ _ _ => c | _ => None end.

(** ** Concrete inputs *)

Definition ex_st0 : wstate := mk_wstate [] [] None [].
Definition ex_cs : call_site := mk_call_site "train_model" 12.

(** A loop body calling [run_script] three times with [step_name="s1"];
    only the first call carries the source. *)
Definition ex_calls : list step_call :=
  [CScript "python:3.8" None (Some "print(1)");
   CScript "python:3.8" None None;
   CScript "python:3.8" None None].

Definition ex_run_calls := run_calls ex_cs (Some "s1") ex_calls ex_st0.
Definition ex_run_calls_rets : list proxies :=
  match snd ex_run_calls with Ret rs => rs | Raise _ => [] end.

Definition ex_pa : output := mk_output KParameter (Some "gen-data") "gen-data" "rows".
Definition ex_pb : output := mk_output KParameter (Some "gen-data") "gen-data" "cols".
Definition ex_art : output :=
  mk_output KArtifact (Some "gen-data") "gen-data" "dataset".

(** A state in which a step [gen-data] exists. *)
Definition ex_st1 : wstate :=
  mk_wstate [] [mk_step "gen-data" "gen-data" None [] []] None [].

(** The same state with the staging area holding one proxy. *)
Definition ex_st_staged : wstate :=
  mk_wstate [] [mk_step "gen-data" "gen-data" None [] []] (Some [VOut ex_pa]) [].

Definition ex_run_art :=
  run_container ex_cs "alpine" None (Some (VList [VOut ex_art])) None None None
    ex_st1.
Definition ex_run_staged :=
  run_container ex_cs "alpine" None None None None None ex_st_staged.

Definition ex_manifest : yval :=
  YMap [("apiVersion", YStr "batch/v1"); ("kind", YStr "Job");
        ("metadata", YMap [("generateName", YStr "pi-job-");
                           ("labels", YMap [("argo.step.owner", YStr "x");
                                            ("team", YStr "ml")])]);
        ("spec", YMap [("env", YList [YMap [("name", YStr "MODE");
                                            ("value", YStr "fast")]]);
                       ("backoffLimit", YInt 4)])].

Definition ex_run_job :=
  run_job ex_cs (Some ex_manifest) "status.succeeded > 0" "status.failed > 3"
    None None true ex_st0.
Definition ex_run_job_env :=
  run_job ex_cs (Some ex_manifest) "status.succeeded > 0" "status.failed > 3"
    None (Some [("LR", VStr "0.1")]) true ex_st0.

(** ** General lemmas *)

Ltac mon := unfold bind, get, put, ret, raise, lift in *;
  cbn -[update_step add_template set_step_output get_template
        run_container_prepare patch_manifest resolve_func_name
        generate_parameters_run_job] in *.

Lemma str_replace1_absent (c : ascii) (r s : string) :
  forallb (fun x => negb (Ascii.eqb x c)) (list_ascii_of_string s) = true ->
  str_replace1 c r s = s.
Proof.
  induction s as [|x s IH]; cbn; [reflexivity|].
  intros H; apply andb_prop in H as [H1 H2].
  destruct (Ascii.eqb x c); [discriminate|].
  now rewrite IH.
Qed.

Lemma forallb_special_each (s : string) :
  forallb (fun c => negb (sql_special c)) (list_ascii_of_string s) = true ->
  forall d, sql_special d = true ->
  forallb (fun x => negb (Ascii.eqb x d)) (list_ascii_of_string s) = true.
Proof.
  intros H d Hd. apply forallb_forall. intros x Hx.
  eapply forallb_forall in H; [|exact Hx].
  destruct (Ascii.eqb x d) eqn:E; [|reflexivity].
  apply Ascii.eqb_eq in E; subst. now rewrite Hd in H.
Qed.

(** ** C10: [escape_sql] *)

(** C10: [escape_sql s] is [s] with each backslash doubled, then each double
    quote, each backtick and each dollar sign prefixed by a backslash, in
    this order; a string with none of these four characters is returned
    unchanged. *)
Theorem escape_sql_sequential_replace (s : string) :
  escape_sql s =
    str_replace1 dollar (String bslash (String dollar EmptyString))
      (str_replace1 backtick (String bslash (String backtick EmptyString))
        (str_replace1 dquote (String bslash (String dquote EmptyString))
          (str_replace1 bslash (String bslash (String bslash EmptyString)) s)))
  /\ (forallb (fun c => negb (sql_special c)) (list_ascii_of_string s) = true ->
      escape_sql s = s).
Proof.
  split; [reflexivity|].
  intros H. pose proof (forallb_special_each s H) as E.
  unfold escape_sql.
  rewrite (str_replace1_absent bslash) by (apply E; reflexivity).
  rewrite (str_replace1_absent dquote) by (apply E; reflexivity).
  rewrite (str_replace1_absent backtick) by (apply E; reflexivity).
  rewrite (str_replace1_absent dollar) by (apply E; reflexivity).
  reflexivity.
Qed.

Lemma escape_sql_sequential_replace_witness :
  forallb (fun c => negb (sql_special c)) (list_ascii_of_string "SELECT 1") = true
  /\ escape_sql "SELECT 1" = "SELECT 1".
Proof.
  split; [reflexivity|].
  apply (proj2 (escape_sql_sequential_replace "SELECT 1")). reflexivity.
Defined.

(** ** C8: [run_job] without a manifest *)

(** C8: [run_job] with an absent manifest raises [MissingManifestError]
    and leaves the workflow state exactly as it was. *)
Theorem run_job_missing_manifest (cs : call_site) (sc fc : string)
  (step_name : option string) (env : option (list (string * value)))
  (own : bool) (st : wstate) :
  run_job cs None sc fc step_name env own st = (st, Raise MissingManifestError).
Proof. reflexivity. Qed.

(** ** Effects of the building blocks *)

Lemma update_step_cases (func_name : string) (args : option value)
  (step_name : option string) (caller_line : nat) (st : wstate) :
  update_step func_name args step_name caller_line st =
    (st, Raise InvalidArgumentError)
  \/ exists s,
      update_step func_name args step_name caller_line st =
        (set_outputs_tmp (snd (staged_args args (outputs_tmp st)))
           (set_steps (steps st ++ [s]) st), Ret (s_name s))
      /\ s_name s = instance_name func_name (count_instances func_name (steps st))
      /\ s_template s = func_name
      /\ s_args s = fst (staged_args args (outputs_tmp st))
      /\ s_inputs s = filter is_artifact_or_job
                        (arg_proxies (fst (staged_args args (outputs_tmp st)))).
Proof.
  unfold update_step. mon.
  destruct (staged_args args (outputs_tmp st)) as [a p] eqn:Ea. cbn.
  destruct (forallb _ _); cbn; [right|left; reflexivity].
  eexists (mk_step _ func_name a (arg_proxies a) _). repeat split; reflexivity.
Qed.

Lemma set_step_output_eq (key : option string) (rets : list output) (st : wstate) :
  set_step_output key rets st =
    (set_steps_outputs (dict_set opt_str_eqb key rets (steps_outputs st)) st,
     Ret tt).
Proof. reflexivity. Qed.

Lemma add_template_fresh (t : template) (st : wstate) :
  get_template st (template_name t) = None ->
  add_template t st =
    (set_templates (templates st ++ [(template_name t, t)]) st, Ret tt).
Proof. intros H. unfold add_template. mon. now rewrite H. Qed.

Lemma run_container_prepare_eq (cs : call_site) (image : string)
  (command : option string) (args output : option value)
  (input : option (list value)) (step_name : option string) (st : wstate) :
  let fn := resolve_func_name cs step_name in
  run_container_prepare cs image command args output input step_name st =
  match get_template st fn with
  | Some _ => (st, Ret (fn, cs_line cs, args))
  | None =>
      let nargs := normalize_args args (outputs_tmp st) in
      (set_templates
         (templates st ++
          [(fn, Container fn image command nargs output
                  (mirror_artifacts nargs
                     (match input with Some i => i | None => [] end)))]) st,
       Ret (fn, cs_line cs, nargs))
  end.
Proof.
  cbv zeta. unfold run_container_prepare. mon.
  destruct (get_template _ _) eqn:E; [reflexivity|].
  unfold add_template. mon. rewrite E. reflexivity.
Qed.

(** ** C4: [run_script] without a source *)

(** C4: [run_script] raises [MissingSourceError] exactly when no source is
    given and the resolved name is not yet registered; it then leaves the
    workflow state as it was (no template, no step). *)
Theorem run_script_missing_source (cs : call_site) (image : string)
  (command source : option string) (step_name : option string) (st : wstate) :
  (snd (run_script cs image command source step_name st) = Raise MissingSourceError
   <-> source = None /\ get_template st (resolve_func_name cs step_name) = None)
  /\ (snd (run_script cs image command source step_name st) = Raise MissingSourceError
      -> fst (run_script cs image command source step_name st) = st).
Proof.
  unfold run_script. mon.
  destruct (get_template st (resolve_func_name cs step_name)) as [t|] eqn:E.
  - mon.
    destruct (update_step_cases (resolve_func_name cs step_name) None step_name
                (cs_line cs) st) as [U|[s [U _]]]; rewrite U; cbn.
    + split; [split; [discriminate|intros [_ H]; discriminate] | discriminate].
    + split; [split; [discriminate|intros [_ H]; discriminate] | discriminate].
  - destruct source as [src|]; mon.
    + rewrite (add_template_fresh (Script _ image command src) st E). mon.
      match goal with |- context [update_step ?f ?a ?n ?l ?s] =>
        destruct (update_step_cases f a n l s) as [U|[x [U _]]]; rewrite U end;
      cbn; split; (split; [discriminate|intros [H _]; discriminate]) || discriminate.
    + tauto.
Qed.

(** ** C9: normalisation of [args] happens only on registration *)

(** C9: the first part of [run_container] (up to [update_step]): when the
    resolved name is already registered, the state is untouched and the
    caller's [args] go to [update_step] as given; only when the name is
    fresh are they normalised (and the template registered). *)
Theorem run_container_normalizes_only_fresh (cs : call_site) (image : string)
  (command : option string) (args output : option value)
  (input : option (list value)) (step_name : option string) (st : wstate) :
  let fn := resolve_func_name cs step_name in
  run_container_prepare cs image command args output input step_name st =
  match get_template st fn with
  | Some _ => (st, Ret (fn, cs_line cs, args))
  | None =>
      let nargs := normalize_args args (outputs_tmp st) in
      (set_templates
         (templates st ++
          [(fn, Container fn image command nargs output
                  (mirror_artifacts nargs
                     (match input with Some i => i | None => [] end)))]) st,
       Ret (fn, cs_line cs, nargs))
  end.
Proof. apply run_container_prepare_eq. Qed.

(** ** C2: one level of list wrapping around proxies is flattened *)

Lemma normalize_args_flatten (a b : output) (p : option (list value)) :
  normalize_args (Some (VList [VList [VOut a; VOut b]])) p =
  normalize_args (Some (VList [VOut a; VOut b])) p.
Proof. destruct p; reflexivity. Qed.

(** C2: on a call that constructs the template, [args=[[a, b]]] and
    [args=[a, b]] give the same run: the same template arguments, the same
    step and the same returned proxies. *)
Theorem run_container_flattens_nested_args (a b : output) (cs : call_site)
  (image : string) (command : option string) (output : option value)
  (input : option (list value)) (step_name : option string) (st : wstate) :
  get_template st (resolve_func_name cs step_name) = None ->
  run_container cs image command (Some (VList [VList [VOut a; VOut b]]))
    output input step_name st =
  run_container cs image command (Some (VList [VOut a; VOut b]))
    output input step_name st.
Proof.
  intros H. unfold run_container.
  pose proof (run_container_prepare_eq cs image command
                (Some (VList [VList [VOut a; VOut b]])) output input step_name st)
    as E1.
  pose proof (run_container_prepare_eq cs image command
                (Some (VList [VOut a; VOut b])) output input step_name st)
    as E2.
  cbv zeta in E1, E2. rewrite H in E1, E2.
  rewrite normalize_args_flatten in E1.
  unfold bind. rewrite E1, E2. reflexivity.
Qed.

Lemma run_container_flattens_nested_args_witness :
  get_template ex_st1 (resolve_func_name ex_cs None) = None /\
  run_container ex_cs "alpine" None (Some (VList [VList [VOut ex_pa; VOut ex_pb]]))
    None None None ex_st1 =
  run_container ex_cs "alpine" None (Some (VList [VOut ex_pa; VOut ex_pb]))
    None None None ex_st1.
Proof.
  split; [reflexivity|].
  apply run_container_flattens_nested_args. reflexivity.
Defined.

(** ** Instance names are pairwise distinct *)

Lemma string_of_uint_inj (d e : uint) :
  string_of_uint d = string_of_uint e -> d = e.
Proof.
  revert e; induction d; intros e H; destruct e; cbn in H;
    try discriminate; try reflexivity;
    injection H as H; f_equal; auto.
Qed.

Lemma str_nat_inj (a b : nat) : str_nat a = str_nat b -> a = b.
Proof.
  unfold str_nat. intros H. apply string_of_uint_inj in H.
  rewrite <- (Unsigned.of_to a), <- (Unsigned.of_to b), H. reflexivity.
Qed.

Lemma string_app_inv_l (p x y : string) :
  (p ++ x)%string = (p ++ y)%string -> x = y.
Proof.
  induction p as [|c p IH]; cbn; [auto|].
  intros H; injection H; auto.
Qed.

Lemma string_length_app (p x : string) :
  String.length (p ++ x) = String.length p + String.length x.
Proof. induction p; cbn; auto. Qed.

Lemma instance_name_inj (tname : string) (k l : nat) :
  instance_name tname k = instance_name tname l -> k = l.
Proof.
  unfold instance_name.
  destruct k as [|k], l as [|l]; intros H; try reflexivity.
  - apply (f_equal String.length) in H.
    rewrite string_length_app in H. cbn in H. lia.
  - apply (f_equal String.length) in H.
    rewrite string_length_app in H. cbn in H. lia.
  - apply string_app_inv_l in H.
    change ((String "-" EmptyString ++ str_nat (S (S k)))%string =
            (String "-" EmptyString ++ str_nat (S (S l)))%string) in H.
    apply string_app_inv_l, str_nat_inj in H. lia.
Qed.

Lemma NoDup_map_seq {B} (f : nat -> B) (k n : nat) :
  (forall a b, f a = f b -> a = b) -> NoDup (map f (seq k n)).
Proof.
  intros Hf. revert k. induction n as [|n IH]; intros k; cbn; constructor; auto.
  intros Hin. apply in_map_iff in Hin as [x [Hx Hin]].
  apply Hf in Hx. subst. apply in_seq in Hin. lia.
Qed.

Lemma count_instances_app (tname : string) (ss : list step) (s : step) :
  s_template s = tname ->
  count_instances tname (ss ++ [s]) = S (count_instances tname ss).
Proof.
  intros H. unfold count_instances. rewrite filter_app, length_app. cbn.
  rewrite H, String.eqb_refl. cbn. lia.
Qed.

Lemma assoc_app_fresh {V} (k : string) (l : list (string * V)) (v : V) :
  assoc String.eqb k l = None -> assoc String.eqb k (l ++ [(k, v)]) = Some v.
Proof.
  induction l as [|[k' v'] l IH]; cbn; intros H.
  - now rewrite String.eqb_refl.
  - destruct (String.eqb k k'); [discriminate|auto].
Qed.

(** ** Effects of one step call *)

Lemma get_template_set_steps (st : wstate) (ss : list step) (p : option (list value))
  (so : list (option string * list output)) (fn : string) :
  get_template (set_steps_outputs so (set_outputs_tmp p (set_steps ss st))) fn
  = get_template st fn.
Proof. reflexivity. Qed.

Ltac step_tail H :=
  match type of H with
  | context [update_step ?f ?a ?n ?l ?s] =>
      let U := fresh "U" in let x := fresh "s" in
      let Hn := fresh "Hn" in let Ht := fresh "Ht" in
      destruct (update_step_cases f a n l s) as [U|[x [U [Hn [Ht _]]]]];
      rewrite U in H; mon; [discriminate|]
  end.

Lemma run_script_effect (cs : call_site) (image : string)
  (command source step_name : option string) (st st' : wstate) (r : proxies) :
  run_script cs image command source step_name st = (st', Ret r) ->
  call_effect (resolve_func_name cs step_name) st st'.
Proof.
  unfold run_script, call_effect. intros H. mon.
  destruct (get_template st (resolve_func_name cs step_name)) as [t|] eqn:E.
  - mon. step_tail H. rewrite set_step_output_eq in H. mon.
    injection H as <- _. cbn.
    split; [discriminate|]. split; [auto|]. exists s. auto.
  - destruct source as [src|]; mon; [|discriminate].
    rewrite (add_template_fresh (Script _ image command src) st E) in H. mon.
    step_tail H. rewrite set_step_output_eq in H. mon.
    injection H as <- _. cbn.
    split; [eauto|]. split; [congruence|]. exists s. auto.
Qed.

Lemma get_template_after_step (st : wstate) (ss : list step)
  (p : option (list value)) (fn : string) :
  get_template (set_outputs_tmp p (set_steps ss st)) fn = get_template st fn.
Proof. reflexivity. Qed.

Lemma get_template_registered (st : wstate) (fn : string) (t : template) :
  get_template st fn = None ->
  get_template (set_templates (templates st ++ [(fn, t)]) st) fn = Some t.
Proof. apply assoc_app_fresh. Qed.

Lemma run_container_effect (cs : call_site) (image : string)
  (command : option string) (args output : option value)
  (input : option (list value)) (step_name : option string)
  (st st' : wstate) (r : proxies) :
  run_container cs image command args output input step_name st = (st', Ret r) ->
  call_effect (resolve_func_name cs step_name) st st'.
Proof.
  unfold run_container, call_effect. intros H. mon.
  rewrite run_container_prepare_eq in H. cbv zeta in H.
  destruct (get_template st (resolve_func_name cs step_name)) as [t|] eqn:E.
  - mon. step_tail H. rewrite get_template_after_step, E in H. mon.
    rewrite set_step_output_eq in H. mon.
    injection H as <- _. cbn.
    split; [discriminate|]. split; [auto|]. exists s. auto.
  - mon. step_tail H.
    rewrite get_template_after_step, get_template_registered in H by exact E.
    mon. rewrite set_step_output_eq in H. mon.
    injection H as <- _. cbn.
    split; [eauto|]. split; [congruence|]. exists s. auto.
Qed.

Lemma run_job_effect (cs : call_site) (manifest : option yval)
  (sc fc : string) (step_name : option string)
  (env : option (list (string * value))) (own : bool)
  (st st' : wstate) (r : proxies) :
  run_job cs manifest sc fc step_name env own st = (st', Ret r) ->
  call_effect (resolve_func_name cs step_name) st st'.
Proof.
  unfold run_job, call_effect. intros H.
  destruct manifest as [m|]; [|discriminate]. mon.
  destruct (get_template st (resolve_func_name cs step_name)) as [t|] eqn:E.
  - mon. step_tail H. rewrite set_step_output_eq in H. mon.
    injection H as <- _. cbn.
    split; [discriminate|]. split; [auto|]. exists s. auto.
  - mon. destruct (generate_parameters_run_job _) as [[envs ps] args] eqn:G.
    mon.
    destruct (match _ with Some _ => patch_manifest m envs | None => Ret m end)
      as [m'|e] eqn:P; [|discriminate].
    rewrite (add_template_fresh (Job _ args m' own sc fc) st E) in H. mon.
    step_tail H. rewrite set_step_output_eq in H. mon.
    injection H as <- _. cbn.
    split; [eauto|]. split; [congruence|]. exists s. auto.
Qed.

Lemma run_call_effect (cs : call_site) (step_name : option string)
  (c : step_call) (st st' : wstate) (r : proxies) :
  run_call cs step_name c st = (st', Ret r) ->
  call_effect (resolve_func_name cs step_name) st st'.
Proof.
  destruct c; unfold run_call.
  - apply run_script_effect.
  - apply run_container_effect.
  - apply run_job_effect.
Qed.

Lemma get_template_after_call (fn : string) (st st' : wstate) :
  call_effect fn st st' -> get_template st' fn <> None.
Proof.
  intros [Hfresh [Hold _]].
  destruct (get_template st fn) as [t|] eqn:E.
  - unfold get_template. rewrite Hold by congruence. fold (get_template st fn).
    congruence.
  - destruct (Hfresh eq_refl) as [t Ht]. unfold get_template. rewrite Ht.
    rewrite assoc_app_fresh by exact E. discriminate.
Qed.

Lemma run_calls_effect (cs : call_site) (step_name : option string)
  (calls : list step_call) (st st' : wstate) (rs : list proxies) :
  run_calls cs step_name calls st = (st', Ret rs) ->
  let fn := resolve_func_name cs step_name in
  exists new, steps st' = steps st ++ new
    /\ map s_name new = map (instance_name fn)
                          (seq (count_instances fn (steps st)) (length calls))
    /\ (get_template st fn <> None -> templates st' = templates st)
    /\ (get_template st fn = None -> calls <> [] ->
          exists t, templates st' = templates st ++ [(fn, t)]).
Proof.
  intros H fn. revert st rs H.
  induction calls as [|c calls IH]; intros st rs H.
  - cbn in H. injection H as <- _. exists []. rewrite app_nil_r.
    repeat split; auto. intros _ C. congruence.
  - cbn [run_calls] in H. unfold bind at 1 in H.
    destruct (run_call cs step_name c st) as [st1 [r|e]] eqn:R; [|discriminate].
    unfold bind at 1 in H.
    destruct (run_calls cs step_name calls st1) as [st2 [rs'|e]] eqn:R2;
      [|discriminate].
    unfold ret in H. injection H as <- _.
    pose proof (run_call_effect _ _ _ _ _ _ R) as Eff. fold fn in Eff.
    pose proof (get_template_after_call _ _ _ Eff) as Reg.
    destruct Eff as [Hfresh [Hold [s [Hs [Ht Hn]]]]].
    destruct (IH st1 rs' R2) as [new [Hst [Hnames [Hkeep _]]]].
    exists (s :: new). split; [|split; [|split]].
    + rewrite Hst, Hs, <- app_assoc. reflexivity.
    + cbn. rewrite Hnames, Hs, count_instances_app by exact Ht.
      rewrite Hn. reflexivity.
    + intros Hn0. rewrite (Hkeep Reg). apply Hold, Hn0.
    + intros Hn0 _. rewrite (Hkeep Reg). apply Hfresh, Hn0.
Qed.

(** ** C1: one template, N steps, N distinct step names *)

(** C1: running N >= 1 step calls from one call site with one unchanged
    explicit name (a loop body), starting from a registry without that name,
    registers exactly one template under it and appends exactly N steps
    whose resolved names are pairwise distinct. *)
Theorem run_calls_one_template_n_steps (cs : call_site)
  (step_name : option string) (calls : list step_call) (st st' : wstate)
  (rs : list proxies) :
  calls <> [] ->
  get_template st (resolve_func_name cs step_name) = None ->
  run_calls cs step_name calls st = (st', Ret rs) ->
  (exists t, templates st' = templates st ++ [(resolve_func_name cs step_name, t)])
  /\ exists new, steps st' = steps st ++ new /\ length new = length calls
       /\ NoDup (map s_name new).
Proof.
  intros Hne Hfresh H.
  destruct (run_calls_effect _ _ _ _ _ _ H) as [new [Hst [Hnames [_ Hreg]]]].
  split; [exact (Hreg Hfresh Hne)|].
  exists new. split; [exact Hst|]. split.
  - rewrite <- (length_map s_name), Hnames, length_map, length_seq. reflexivity.
  - rewrite Hnames. apply NoDup_map_seq, instance_name_inj.
Qed.

Lemma run_calls_one_template_n_steps_witness :
  ex_calls <> [] /\
  get_template ex_st0 (resolve_func_name ex_cs (Some "s1")) = None /\
  ex_run_calls = (fst ex_run_calls, Ret ex_run_calls_rets) /\
  ((exists t, templates (fst ex_run_calls) =
               templates ex_st0 ++ [(resolve_func_name ex_cs (Some "s1"), t)])
   /\ exists new, steps (fst ex_run_calls) = steps ex_st0 ++ new
        /\ length new = length ex_calls /\ NoDup (map s_name new)).
Proof.
  split; [discriminate|]. split; [reflexivity|]. split; [vm_compute; reflexivity|].
  apply (run_calls_one_template_n_steps ex_cs (Some "s1") ex_calls ex_st0
           (fst ex_run_calls) ex_run_calls_rets);
    [discriminate | reflexivity | vm_compute; reflexivity].
Defined.

(** ** C3: artifact and job proxies among [args] become step inputs *)

Lemma in_arg_proxies (o : output) (a : option value) :
  In (VOut o) (arg_elems a) -> In o (arg_proxies a).
Proof.
  destruct a as [v|]; cbn; [|tauto].
  destruct v as [s|z|l|o']; cbn; try (intros [H|[]]; discriminate).
  - intros Hin. apply in_flat_map. exists (VOut o). cbn. auto.
  - intros [H|[]]. injection H as ->. auto.
Qed.

Lemma normalize_args_shape (a : option value) (p : option (list value)) :
  normalize_args a p = None \/ exists l, normalize_args a p = Some (VList l).
Proof.
  unfold normalize_args.
  destruct a as [v|], p as [t|]; cbn; eauto.
Qed.

Lemma in_mirror_artifacts (o : output) (a : option value) (input : list value) :
  (a = None \/ exists l, a = Some (VList l)) ->
  In (VOut o) (arg_elems a) -> is_artifact_or_job o = true ->
  In (VOut o) (mirror_artifacts a input).
Proof.
  intros [->|[l ->]]; cbn; [tauto|]. intros Hin Ho.
  apply in_or_app. right. apply filter_In. auto.
Qed.

(** C3: after a successful [run_container], every artifact or job proxy
    among the [args] the call hands to the step assembler (the normalised
    [args] when the call registers the template) is among the inputs of the
    appended step; when the call registers the template, it is also in the
    template's [input] list. *)
Theorem run_container_promotes_artifacts (o : output) (cs : call_site)
  (image : string) (command : option string) (args output : option value)
  (input : option (list value)) (step_name : option string)
  (st st' : wstate) (r : proxies) :
  run_container cs image command args output input step_name st = (st', Ret r) ->
  In (VOut o) (arg_elems (container_forwarded_args st cs step_name args)) ->
  is_artifact_or_job o = true ->
  exists s, steps st' = steps st ++ [s] /\ In o (s_inputs s)
    /\ (get_template st (resolve_func_name cs step_name) = None ->
        exists t, get_template st' (resolve_func_name cs step_name) = Some t
                  /\ In (VOut o) (container_input t)).
Proof.
  unfold run_container, container_forwarded_args. intros H Hin Ho. mon.
  rewrite run_container_prepare_eq in H. cbv zeta in H.
  destruct (get_template st (resolve_func_name cs step_name)) as [t|] eqn:E.
  - mon.
    destruct (update_step_cases (resolve_func_name cs step_name) args step_name
                (cs_line cs) st) as [U|[s [U [_ [_ [_ Hi]]]]]];
      rewrite U in H; mon; [discriminate|].
    rewrite get_template_after_step, E in H. mon.
    rewrite set_step_output_eq in H. mon. injection H as <- _. cbn.
    exists s. split; [reflexivity|]. split; [|discriminate].
    rewrite Hi. apply filter_In. split; [|exact Ho].
    destruct args as [v|]; [|contradiction].
    exact (in_arg_proxies o (Some v) Hin).
  - mon.
    set (nargs := normalize_args args (outputs_tmp st)) in *.
    set (st1 := set_templates _ st) in H.
    destruct (update_step_cases (resolve_func_name cs step_name) nargs step_name
                (cs_line cs) st1) as [U|[s [U [_ [_ [_ Hi]]]]]];
      rewrite U in H; mon; [discriminate|].
    rewrite get_template_after_step in H. unfold st1 in H.
    rewrite get_template_registered in H by exact E.
    mon. rewrite set_step_output_eq in H. mon. injection H as <- _. cbn.
    pose proof (normalize_args_shape args (outputs_tmp st)) as Sh. fold nargs in Sh.
    exists s. split; [reflexivity|]. split.
    + rewrite Hi. apply filter_In. split; [|exact Ho].
      destruct Sh as [Hn|[l Hn]]; rewrite Hn in Hin |- *; [contradiction|].
      exact (in_arg_proxies o (Some (VList l)) Hin).
    + intros _. eexists. split.
      * exact (assoc_app_fresh _ _ _ E).
      * cbn. apply in_mirror_artifacts; auto.
Qed.

Lemma run_container_promotes_artifacts_witness :
  ex_run_art = (fst ex_run_art,
                Ret [mk_output KParameter (Some "train-model-12") "train-model-12"
                       "output"]) /\
  In (VOut ex_art)
     (arg_elems (container_forwarded_args ex_st1 ex_cs None
                   (Some (VList [VOut ex_art])))) /\
  is_artifact_or_job ex_art = true /\
  exists s, steps (fst ex_run_art) = steps ex_st1 ++ [s] /\ In ex_art (s_inputs s)
    /\ (get_template ex_st1 (resolve_func_name ex_cs None) = None ->
        exists t, get_template (fst ex_run_art) (resolve_func_name ex_cs None) = Some t
                  /\ In (VOut ex_art) (container_input t)).
Proof.
  split; [vm_compute; reflexivity|].
  split; [cbn; left; reflexivity|]. split; [reflexivity|].
  apply (run_container_promotes_artifacts ex_art ex_cs "alpine" None
           (Some (VList [VOut ex_art])) None None None ex_st1 (fst ex_run_art)
           [mk_output KParameter (Some "train-model-12") "train-model-12" "output"]).
  - vm_compute. reflexivity.
  - cbn. left. reflexivity.
  - reflexivity.
Defined.

(** ** C5: the staging area as implicit arguments *)

(** C5 (counterexample): with [args] omitted and one staged proxy, a
    [run_container] call that registers its template succeeds, uses the
    staged proxy as its arguments, and leaves the staging area holding it:
    the call does not clear the staging area. *)
Lemma run_container_staging_not_cleared :
  get_template ex_st_staged (resolve_func_name ex_cs None) = None /\
  outputs_tmp ex_st_staged = Some [VOut ex_pa] /\
  snd ex_run_staged =
    Ret [mk_output KParameter (Some "train-model-12") "train-model-12" "output"] /\
  outputs_tmp (fst ex_run_staged) = Some [VOut ex_pa].
Proof. vm_compute. repeat split; reflexivity. Qed.

(** C5 (amended): a [run_container] call without [args] that registers its
    template while the staging area holds a non-empty list [l] gives the
    new template and the appended step the argument list [l]; the call
    leaves the staging area as it was. *)
Theorem run_container_uses_staged_outputs (cs : call_site) (image : string)
  (command : option string) (output : option value)
  (input : option (list value)) (step_name : option string)
  (st st' : wstate) (r : proxies) (l : list value) :
  get_template st (resolve_func_name cs step_name) = None ->
  outputs_tmp st = Some l -> l <> [] ->
  run_container cs image command None output input step_name st = (st', Ret r) ->
  (exists t, get_template st' (resolve_func_name cs step_name) = Some t
             /\ container_args t = Some (VList l))
  /\ (exists s, steps st' = steps st ++ [s] /\ s_args s = Some (VList l))
  /\ outputs_tmp st' = Some l.
Proof.
  intros E Hp _ H. unfold run_container in H. mon.
  rewrite run_container_prepare_eq in H. cbv zeta in H. rewrite E in H.
  assert (Hn : normalize_args None (outputs_tmp st) = Some (VList l))
    by (rewrite Hp; reflexivity).
  rewrite Hn in H. mon.
  set (st1 := set_templates _ st) in H.
  destruct (update_step_cases (resolve_func_name cs step_name) (Some (VList l))
              step_name (cs_line cs) st1) as [U|[s [U [_ [_ [Ha _]]]]]];
    rewrite U in H; mon; [discriminate|].
  rewrite get_template_after_step in H. unfold st1 in H.
  rewrite get_template_registered in H by exact E.
  mon. rewrite set_step_output_eq in H. mon. injection H as <- _. cbn.
  split; [|split].
  - eexists. split; [exact (assoc_app_fresh _ _ _ E)|reflexivity].
  - exists s. split; [reflexivity|]. rewrite Ha. reflexivity.
  - exact Hp.
Qed.

Lemma run_container_uses_staged_outputs_witness :
  get_template ex_st_staged (resolve_func_name ex_cs None) = None /\
  outputs_tmp ex_st_staged = Some [VOut ex_pa] /\ [VOut ex_pa] <> [] /\
  ex_run_staged =
    (fst ex_run_staged,
     Ret [mk_output KParameter (Some "train-model-12") "train-model-12" "output"]) /\
  ((exists t, get_template (fst ex_run_staged) (resolve_func_name ex_cs None) = Some t
              /\ container_args t = Some (VList [VOut ex_pa]))
   /\ (exists s, steps (fst ex_run_staged) = steps ex_st_staged ++ [s]
                 /\ s_args s = Some (VList [VOut ex_pa]))
   /\ outputs_tmp (fst ex_run_staged) = Some [VOut ex_pa]).
Proof.
  split; [reflexivity|]. split; [reflexivity|]. split; [discriminate|].
  split; [vm_compute; reflexivity|].
  apply (run_container_uses_staged_outputs ex_cs "alpine" None None None None
           ex_st_staged (fst ex_run_staged)
           [mk_output KParameter (Some "train-model-12") "train-model-12" "output"]);
    [reflexivity | reflexivity | discriminate | vm_compute; reflexivity].
Defined.

(** ** C6: where the step calls store their output proxies *)

(** C6 (divergence of [run_job]): called without an explicit step name,
    [run_job] appends a step that the assembler names [train-model-12], but
    it builds the returned proxies from, and stores them under, the
    caller's [step_name], which is None; nothing is stored under the
    resolved name. *)
Theorem run_job_outputs_keyed_by_caller_name :
  snd (update_step "train-model-12" (Some (VList [])) None 12 ex_st0)
    = Ret "train-model-12" /\
  map s_name (steps (fst ex_run_job)) = ["train-model-12"] /\
  assoc opt_str_eqb (Some "train-model-12") (steps_outputs (fst ex_run_job)) = None /\
  assoc opt_str_eqb None (steps_outputs (fst ex_run_job))
    = Some (job_output None "train-model-12") /\
  snd ex_run_job = Ret (job_output None "train-model-12").
Proof. vm_compute. repeat split; reflexivity. Qed.

(** ** C7: the manifest patch of [run_job] *)

Lemma assoc_dict_set_eq {V} (k : string) (v : V) (l : list (string * V)) :
  assoc String.eqb k (dict_set String.eqb k v l) = Some v.
Proof.
  induction l as [|[k' v'] l IH]; cbn.
  - now rewrite String.eqb_refl.
  - destruct (String.eqb k k') eqn:E; cbn; rewrite ?String.eqb_refl, ?E; auto.
Qed.

Lemma assoc_dict_set_neq {V} (k k' : string) (v : V) (l : list (string * V)) :
  k' <> k -> assoc String.eqb k' (dict_set String.eqb k v l) = assoc String.eqb k' l.
Proof.
  intros Hne. induction l as [|[k0 v0] l IH]; cbn.
  - apply String.eqb_neq in Hne. now rewrite Hne.
  - destruct (String.eqb k k0) eqn:E; cbn.
    + apply String.eqb_eq in E. subst k0.
      apply String.eqb_neq in Hne. now rewrite Hne.
    + now rewrite IH.
Qed.

Lemma dict_set_same {V} (k : string) (v : V) (l : list (string * V)) :
  assoc String.eqb k l = Some v -> dict_set String.eqb k v l = l.
Proof.
  induction l as [|[k' v'] l IH]; cbn; [discriminate|].
  destruct (String.eqb k k') eqn:E.
  - intros H. injection H as ->. apply String.eqb_eq in E. now subst.
  - intros H. now rewrite IH.
Qed.

Lemma existsb_key_assoc {V} (key : string) (kv : list (string * V)) :
  existsb (fun '(k, _) => String.eqb key k) kv = true <->
  exists v, assoc String.eqb key kv = Some v.
Proof.
  induction kv as [|[k v] kv IH]; cbn.
  - split; [discriminate|intros [v H]; discriminate].
  - destruct (String.eqb key k); cbn; [split; eauto|exact IH].
Qed.

Lemma patched_intro (kv spkv : list (string * yval)) (md md' : yval)
  (envs : list yval) :
  assoc String.eqb "spec" kv = Some (YMap spkv) ->
  assoc String.eqb "metadata" kv = Some md ->
  (owner_label md = false -> md' = md) ->
  (owner_label md = true ->
   exists mkv lkv, md = YMap mkv
     /\ assoc String.eqb "labels" mkv = Some (YMap lkv)
     /\ md' = YMap (dict_set String.eqb "labels"
                     (YMap (dict_set String.eqb "argo.step.owner"
                              (YStr owner_label_value) lkv)) mkv)) ->
  manifest_patched (YMap kv)
    (YMap (dict_set String.eqb "metadata" md'
             (dict_set String.eqb "spec"
                (YMap (dict_set String.eqb "env" (YList envs) spkv)) kv)))
    envs.
Proof.
  intros Hs Hm Hf Ht.
  exists kv, (dict_set String.eqb "metadata" md'
                (dict_set String.eqb "spec"
                   (YMap (dict_set String.eqb "env" (YList envs) spkv)) kv)),
    spkv, (dict_set String.eqb "env" (YList envs) spkv), md, md'.
  repeat split; auto.
  - intros k H1 H2. rewrite !assoc_dict_set_neq; auto.
  - rewrite assoc_dict_set_neq by discriminate. apply assoc_dict_set_eq.
  - apply assoc_dict_set_eq.
  - intros k Hk. apply assoc_dict_set_neq. exact Hk.
  - apply assoc_dict_set_eq.
  - intros Ho. destruct (Ht Ho) as [mkv [lkv [-> [Hl ->]]]].
    exists mkv, (dict_set String.eqb "labels"
                   (YMap (dict_set String.eqb "argo.step.owner"
                            (YStr owner_label_value) lkv)) mkv),
      lkv, (dict_set String.eqb "argo.step.owner" (YStr owner_label_value) lkv).
    repeat split; auto.
    + intros k Hk. apply assoc_dict_set_neq. exact Hk.
    + apply assoc_dict_set_eq.
    + apply assoc_dict_set_eq.
    + intros k Hk. apply assoc_dict_set_neq. exact Hk.
Qed.

Lemma patch_manifest_spec (m m' : yval) (envs : list yval) :
  patch_manifest m envs = Ret m' -> manifest_patched m m' envs.
Proof.
  unfold patch_manifest. intros H.
  destruct m as [| | | |kv]; cbn -[String.eqb] in H; try discriminate.
  destruct (assoc String.eqb "spec" kv) as [sp|] eqn:Hs; cbn -[String.eqb] in H; try discriminate.
  destruct sp as [| | | |spkv]; cbn -[String.eqb] in H; try discriminate.
  rewrite (assoc_dict_set_neq "spec" "metadata") in H by discriminate.
  destruct (assoc String.eqb "metadata" kv) as [md|] eqn:Hm; cbn -[String.eqb] in H;
    try discriminate.
  set (kv1 := dict_set String.eqb "spec" _ kv) in H.
  assert (Hkv1 : dict_set String.eqb "metadata" md kv1 = kv1).
  { apply dict_set_same. unfold kv1. rewrite assoc_dict_set_neq by discriminate.
    exact Hm. }
  (* the branches that leave the metadata alone *)
  assert (Keep : owner_label md = false -> m' = YMap kv1 ->
                 manifest_patched (YMap kv) m' envs).
  { intros Ho ->. rewrite <- Hkv1. unfold kv1.
    apply (patched_intro kv spkv md md); auto; congruence. }
  destruct md as [|s|z|l|mkv]; cbn -[String.eqb] in H; try discriminate.
  - destruct (String.index 0 "labels" s); cbn -[String.eqb] in H; [discriminate|].
    injection H as <-. now apply Keep.
  - destruct (existsb _ l); cbn -[String.eqb] in H; [discriminate|].
    injection H as <-. now apply Keep.
  - destruct (existsb (fun '(k, _) => String.eqb "labels" k) mkv) eqn:Hl;
      cbn -[String.eqb] in H.
    2:{ injection H as <-. apply Keep; [|reflexivity]. cbn.
        destruct (assoc String.eqb "labels" mkv) eqn:Ha; [|reflexivity].
        exfalso. assert (exists v, assoc String.eqb "labels" mkv = Some v)
          as Hex by eauto.
        apply existsb_key_assoc in Hex. congruence. }
    destruct (assoc String.eqb "labels" mkv) as [lab|] eqn:Ha; cbn -[String.eqb] in H;
      [|discriminate].
    destruct lab as [|s|z|l|lkv]; cbn -[String.eqb] in H; try discriminate.
    + destruct (String.index 0 "argo.step.owner" s); cbn -[String.eqb] in H; [discriminate|].
      injection H as <-. apply Keep; [|reflexivity]. cbn -[String.eqb]. now rewrite Ha.
    + destruct (existsb _ l); cbn -[String.eqb] in H; [discriminate|].
      injection H as <-. apply Keep; [|reflexivity]. cbn -[String.eqb]. now rewrite Ha.
    + destruct (existsb (fun '(k, _) => String.eqb "argo.step.owner" k) lkv)
        eqn:Ho; cbn -[String.eqb] in H.
      * injection H as <-. unfold kv1.
        apply (patched_intro kv spkv (YMap mkv)); auto.
        -- cbn -[String.eqb]. rewrite Ha, Ho. discriminate.
        -- intros _. exists mkv, lkv. auto.
      * injection H as <-. apply Keep; [|reflexivity]. cbn -[String.eqb]. now rewrite Ha.
Qed.

Lemma run_job_fresh_manifest (cs : call_site) (m : yval) (sc fc : string)
  (step_name : option string) (env : option (list (string * value)))
  (own : bool) (st st' : wstate) (r : proxies) :
  get_template st (resolve_func_name cs step_name) = None ->
  run_job cs (Some m) sc fc step_name env own st = (st', Ret r) ->
  exists m',
    job_manifest (get_template st' (resolve_func_name cs step_name)) = Some m'
    /\ match job_env st env with
       | None => Ret m
       | Some _ => patch_manifest m (generated_envs (job_env st env))
       end = Ret m'.
Proof.
  unfold run_job. intros E H. mon. rewrite E in H. mon.
  destruct (generate_parameters_run_job _) as [[envs ps] args] eqn:G. mon.
  destruct (match _ with Some _ => patch_manifest m envs | None => Ret m end)
    as [m'|e] eqn:P; [|discriminate].
  rewrite (add_template_fresh (Job _ args m' own sc fc) st E) in H. mon.
  step_tail H. rewrite set_step_output_eq in H. mon.
  injection H as <- _. exists m'. split.
  - rewrite get_template_set_steps, get_template_registered by exact E.
    reflexivity.
  - unfold generated_envs, job_env. rewrite G. exact P.
Qed.

Lemma job_env_none (st : wstate) (env : option (list (string * value))) :
  job_env st env = None <-> env = None.
Proof.
  unfold job_env. destruct (outputs_tmp st), env; split; congruence.
Qed.

(** Claim C7 (counterexample): a manifest whose [spec.env] already holds
    [MODE=fast], registered with the environment mapping [{LR: "0.1"}]. The
    template's manifest has [spec.env] equal to the generated [LR] entry
    alone: the [MODE] entry is dropped, not merged. The owner label becomes
    ['{{pod.name}}'] and every other field is kept. *)
Lemma run_job_env_replaces_manifest_env :
  snd ex_run_job_env = Ret (job_output None "train-model-12")
  /\ job_manifest (get_template (fst ex_run_job_env) "train-model-12") =
     Some (YMap
       [("apiVersion", YStr "batch/v1"); ("kind", YStr "Job");
        ("metadata", YMap [("generateName", YStr "pi-job-");
                           ("labels", YMap [("argo.step.owner",
                                             YStr owner_label_value);
                                            ("team", YStr "ml")])]);
        ("spec", YMap [("env", YList [YMap [("name", YStr "LR");
                                            ("value", YStr "0.1")]]);
                       ("backoffLimit", YInt 4)])]).
Proof. vm_compute. split; reflexivity. Qed.

(** Claim C7 (amended): for every successful call to [run_job] that freshly
    registers its template, the template holds a manifest [m'] such that:
    with no environment mapping [m'] is the given manifest; with one, [m']
    is the manifest with [spec.env] replaced by the generated entries (other
    [spec] keys kept), the [argo.step.owner] label, when the metadata labels
    hold it, set to ['{{pod.name}}'] (other labels and metadata kept), and
    every other top-level field unchanged. *)
Theorem run_job_patches_manifest (cs : call_site) (m : yval) (sc fc : string)
  (step_name : option string) (env : option (list (string * value)))
  (own : bool) (st st' : wstate) (r : proxies)
  (Hfresh : get_template st (resolve_func_name cs step_name) = None)
  (Hrun : run_job cs (Some m) sc fc step_name env own st = (st', Ret r)) :
  exists m',
    job_manifest (get_template st' (resolve_func_name cs step_name)) = Some m'
    /\ (env = None -> m' = m)
    /\ (env <> None -> manifest_patched m m' (generated_envs (job_env st env))).
Proof.
  destruct (run_job_fresh_manifest cs m sc fc step_name env own st st' r
              Hfresh Hrun) as [m' [Hm P]].
  exists m'. split; [exact Hm|]. split.
  - intros Hn. apply (job_env_none st) in Hn. rewrite Hn in P. congruence.
  - intros Hn. destruct (job_env st env) as [e|] eqn:Hj.
    + apply patch_manifest_spec. exact P.
    + apply (proj1 (job_env_none st env)) in Hj. contradiction.
Qed.

Lemma run_job_patches_manifest_witness :
  exists m',
    job_manifest (get_template (fst ex_run_job_env) "train-model-12") = Some m'
    /\ (Some [("LR", VStr "0.1")] = None -> m' = ex_manifest)
    /\ (Some [("LR", VStr "0.1")] <> None ->
        manifest_patched ex_manifest m'
          (generated_envs (job_env ex_st0 (Some [("LR", VStr "0.1")])))).
Proof.
  apply (run_job_patches_manifest ex_cs ex_manifest "status.succeeded > 0"
           "status.failed > 3" None (Some [("LR", VStr "0.1")]) true ex_st0
           (fst ex_run_job_env) (job_output None "train-model-12")).
  - vm_compute. reflexivity.
  - vm_compute. reflexivity.
Defined.

(** ** Further properties: [escape_sql] and the shell *)

Lemma string_app_assoc (a b c : string) :
  ((a ++ b) ++ c)%string = (a ++ (b ++ c))%string.
Proof. induction a as [|x a IH]; cbn; [reflexivity|]. now rewrite IH. Qed.

Lemma str_replace1_app (o : ascii) (n a b : string) :
  str_replace1 o n (a ++ b) = (str_replace1 o n a ++ str_replace1 o n b)%string.
Proof.
  induction a as [|c a IH]; cbn; [reflexivity|].
  destruct (Ascii.eqb c o); rewrite IH; [|reflexivity].
  symmetry. apply string_app_assoc.
Qed.

Lemma escape_sql_app (a b : string) :
  escape_sql (a ++ b) = (escape_sql a ++ escape_sql b)%string.
Proof. unfold escape_sql. now rewrite !str_replace1_app. Qed.

Lemma sql_special_cases (c : ascii) :
  sql_special c = true -> c = bslash \/ c = dquote \/ c = backtick \/ c = dollar.
Proof.
  unfold sql_special. intros H.
  destruct (Ascii.eqb c bslash) eqn:E1; [left; now apply Ascii.eqb_eq|].
  destruct (Ascii.eqb c dquote) eqn:E2; [right; left; now apply Ascii.eqb_eq|].
  destruct (Ascii.eqb c backtick) eqn:E3;
    [right; right; left; now apply Ascii.eqb_eq|].
  cbn in H. right; right; right. now apply Ascii.eqb_eq.
Qed.

Lemma sql_special_false (c : ascii) :
  sql_special c = false ->
  Ascii.eqb c bslash = false /\ Ascii.eqb c dquote = false
  /\ Ascii.eqb c backtick = false /\ Ascii.eqb c dollar = false.
Proof. unfold sql_special. intros H. rewrite !orb_false_iff in H. tauto. Qed.

Lemma escape_sql_char (c : ascii) :
  escape_sql (String c EmptyString) =
    if sql_special c then String bslash (String c EmptyString)
    else String c EmptyString.
Proof.
  destruct (sql_special c) eqn:H.
  - apply sql_special_cases in H as [-> | [-> | [-> | ->]]]; reflexivity.
  - apply sql_special_false in H as (E1 & E2 & E3 & E4). unfold escape_sql.
    cbn [str_replace1]. rewrite E1. cbn [str_replace1]. rewrite E2.
    cbn [str_replace1]. rewrite E3. cbn [str_replace1]. rewrite E4.
    reflexivity.
Qed.

Lemma escape_sql_each (s : string) : escape_sql s = escape_each s.
Proof.
  induction s as [|c s IH]; [reflexivity|].
  replace (escape_sql (String c s))
    with (escape_sql (String c EmptyString ++ s)) by reflexivity.
  rewrite escape_sql_app, escape_sql_char, IH. cbn [escape_each].
  destruct (sql_special c); reflexivity.
Qed.

Lemma dq_word_special (d : ascii) (r : string) :
  sql_special d = true ->
  dq_word (String bslash (String d r)) =
    option_map (fun '(w, rest) => (String d w, rest)) (dq_word r).
Proof. intros H. apply sql_special_cases in H as [-> | [-> | [-> | ->]]]; reflexivity. Qed.

Lemma dq_word_plain (c : ascii) (r : string) :
  sql_special c = false ->
  dq_word (String c r) =
    option_map (fun '(w, rest) => (String c w, rest)) (dq_word r).
Proof.
  intros H. apply sql_special_false in H as (E1 & E2 & E3 & E4).
  cbn [dq_word]. rewrite E2, E4, E3, E1. reflexivity.
Qed.

Lemma dq_word_escape (s rest : string) :
  dq_word (escape_sql s ++ String dquote rest) = Some (s, rest).
Proof.
  rewrite escape_sql_each. induction s as [|c s IH]; [reflexivity|].
  cbn [escape_each]. destruct (sql_special c) eqn:H; cbn [append].
  - rewrite dq_word_special by exact H. now rewrite IH.
  - rewrite dq_word_plain by exact H. now rewrite IH.
Qed.

(** [escape_sql] is single-pass escaping: each backslash, double quote,
    backtick and dollar sign is prefixed by one backslash and every other
    character is kept; the later replacements never re-escape the
    backslashes inserted by the earlier ones. *)
Theorem escape_sql_escapes_each_char (s : string) :
  escape_sql s = escape_each s.
Proof. apply escape_sql_each. Qed.

(** Read by bash as the body of a double-quoted word, [escape_sql s]
    followed by a double quote denotes exactly [s]: no [$] or [`] starts an
    expansion, and the word ends at that quote, leaving the rest of the line
    to the shell. *)
Theorem escape_sql_shell_roundtrip (s rest : string) :
  dq_word (escape_sql s ++ String dquote rest) = Some (s, rest).
Proof. apply dq_word_escape. Qed.

(** ** Further properties: the command of the SQLFlow step *)

(** Without a log file (None or the empty string), the step command is
    [step -e] followed by one double-quoted word whose shell value is the
    SQL text unchanged and which ends the command. *)
Theorem sqlflow_command_quotes_sql (sql : string)
  (env : option (list (string * string))) :
  (exists w, sqlflow_command sql env None = ("step -e " ++ String dquote w)%string
             /\ dq_word w = Some (sql, EmptyString))
  /\ (exists w, sqlflow_command sql env (Some EmptyString) =
                ("step -e " ++ String dquote w)%string
                /\ dq_word w = Some (sql, EmptyString)).
Proof.
  split; exists (escape_sql sql ++ String dquote EmptyString)%string;
    (split; [reflexivity|apply dq_word_escape]).
Qed.

(** With a non-empty log file, the command runs the init script, sets
    [pipefail], creates [dirname log_file], then runs [step -e] on one
    double-quoted word whose shell value is the SQL text, piped to
    [tee log_file], and sleeps [exit_time_wait env]; the log path and its
    directory are inserted verbatim. *)
Theorem sqlflow_command_with_log (sql log_file : string)
  (env : option (list (string * string))) (Hlog : log_file <> EmptyString) :
  exists w,
    sqlflow_command sql env (Some log_file) =
      ("if [[ -f /opt/sqlflow/init_step_container.sh ]]; then bash "
       ++ "/opt/sqlflow/init_step_container.sh; fi && set -o pipefail"
       ++ " && mkdir -p " ++ dirname log_file ++ " && (step -e "
       ++ String dquote w)%string
    /\ dq_word w = Some (sql, (" 2>&1 | tee " ++ log_file ++ ") && sleep "
                              ++ exit_time_wait env)%string).
Proof.
  destruct log_file as [|c lf]; [contradiction|].
  eexists. split; [|apply dq_word_escape].
  unfold sqlflow_command, dq. cbn [String.concat].
  rewrite !string_app_assoc. cbn [append]. rewrite ?string_app_assoc.
  reflexivity.
Qed.

Lemma sqlflow_command_with_log_witness :
  exists w,
    sqlflow_command "SELECT 1" None (Some "/tmp/sql/out.log") =
      ("if [[ -f /opt/sqlflow/init_step_container.sh ]]; then bash "
       ++ "/opt/sqlflow/init_step_container.sh; fi && set -o pipefail"
       ++ " && mkdir -p " ++ dirname "/tmp/sql/out.log" ++ " && (step -e "
       ++ String dquote w)%string
    /\ dq_word w = Some ("SELECT 1", (" 2>&1 | tee " ++ "/tmp/sql/out.log"
                              ++ ") && sleep " ++ exit_time_wait None)%string).
Proof. apply sqlflow_command_with_log. discriminate. Defined.

(** ** Further properties: calls under a registered name *)

(** A [run_script] call whose resolved name is already registered does not
    look at [image], [command] or [source]: any two such calls (a missing
    source included) give the same result and the same state. *)
Theorem run_script_reuse_ignores_template_args (cs : call_site)
  (image1 image2 : string) (command1 command2 source1 source2 : option string)
  (step_name : option string) (st : wstate)
  (Hreg : get_template st (resolve_func_name cs step_name) <> None) :
  run_script cs image1 command1 source1 step_name st =
  run_script cs image2 command2 source2 step_name st.
Proof.
  unfold run_script. mon.
  destruct (get_template st (resolve_func_name cs step_name)); [|congruence].
  reflexivity.
Qed.

Lemma run_script_reuse_ignores_template_args_witness :
  let st := fst (run_script ex_cs "python:3.8" None (Some "print(1)") (Some "s1")
                   ex_st0) in
  get_template st (resolve_func_name ex_cs (Some "s1")) <> None /\
  run_script ex_cs "python:3.8" None (Some "print(1)") (Some "s1") st =
  run_script ex_cs "ubuntu" (Some "bash") None (Some "s1") st.
Proof.
  cbv zeta. split; [vm_compute; discriminate|].
  apply run_script_reuse_ignores_template_args. vm_compute. discriminate.
Defined.

(** A [run_container] call whose resolved name is already registered does
    not look at [image], [command], [output] or [input]: only [args] and the
    state matter. *)
Theorem run_container_reuse_ignores_template_args (cs : call_site)
  (image1 image2 : string) (command1 command2 : option string)
  (args output1 output2 : option value) (input1 input2 : option (list value))
  (step_name : option string) (st : wstate)
  (Hreg : get_template st (resolve_func_name cs step_name) <> None) :
  run_container cs image1 command1 args output1 input1 step_name st =
  run_container cs image2 command2 args output2 input2 step_name st.
Proof.
  unfold run_container. mon. rewrite !run_container_prepare_eq. cbv zeta.
  destruct (get_template st (resolve_func_name cs step_name)); [|congruence].
  reflexivity.
Qed.

Lemma run_container_reuse_ignores_template_args_witness :
  get_template (fst ex_run_art) (resolve_func_name ex_cs None) <> None /\
  run_container ex_cs "alpine" None None None None None (fst ex_run_art) =
  run_container ex_cs "ubuntu" (Some "ls") None (Some (VOut ex_art))
    (Some [VStr "x"]) None (fst ex_run_art).
Proof.
  split; [vm_compute; discriminate|].
  apply run_container_reuse_ignores_template_args. vm_compute. discriminate.
Defined.

(** A [run_job] call whose resolved name is already registered does not
    look at the manifest (beyond its presence), the conditions, [env] or
    [set_owner_reference]; the step it appends gets the empty argument
    list. *)
Theorem run_job_reuse_ignores_job_args (cs : call_site) (m1 m2 : yval)
  (sc1 sc2 fc1 fc2 : string) (step_name : option string)
  (env1 env2 : option (list (string * value))) (own1 own2 : bool) (st : wstate)
  (Hreg : get_template st (resolve_func_name cs step_name) <> None) :
  run_job cs (Some m1) sc1 fc1 step_name env1 own1 st =
  run_job cs (Some m2) sc2 fc2 step_name env2 own2 st
  /\ (forall st' r, run_job cs (Some m1) sc1 fc1 step_name env1 own1 st = (st', Ret r) ->
      exists s, steps st' = steps st ++ [s] /\ s_args s = Some (VList [])).
Proof.
  unfold run_job. mon.
  destruct (get_template st (resolve_func_name cs step_name)); [|congruence].
  mon. split; [reflexivity|]. intros st' r H.
  destruct (update_step_cases (resolve_func_name cs step_name) (Some (VList []))
              step_name (cs_line cs) st) as [U|[s [U [_ [_ [Ha _]]]]]];
    rewrite U in H; mon; [discriminate|].
  rewrite set_step_output_eq in H. mon. injection H as <- _.
  exists s. split; [reflexivity|]. rewrite Ha. reflexivity.
Qed.

Lemma run_job_reuse_ignores_job_args_witness :
  get_template (fst ex_run_job) (resolve_func_name ex_cs None) <> None /\
  (run_job ex_cs (Some ex_manifest) "a" "b" None None true (fst ex_run_job) =
   run_job ex_cs (Some YNull) "c" "d" None (Some [("LR", VStr "1")]) false
     (fst ex_run_job)
   /\ (forall st' r,
         run_job ex_cs (Some ex_manifest) "a" "b" None None true (fst ex_run_job)
           = (st', Ret r) ->
         exists s, steps st' = steps (fst ex_run_job) ++ [s]
                   /\ s_args s = Some (VList []))).
Proof.
  split; [vm_compute; discriminate|].
  apply run_job_reuse_ignores_job_args. vm_compute. discriminate.
Defined.

(** ** Further properties: the manifest patch fails before registration *)

(** The manifest patch raises [KeyError] when the manifest mapping has no
    [spec] key, or has a mapping [spec] but no [metadata] key; it raises
    [TypeError] when the manifest is not a mapping, when its [spec] is not a
    mapping, or when its [metadata] is null or an integer. *)
Theorem patch_manifest_errors (m : yval) (envs : list yval) :
  ((forall kv, m <> YMap kv) -> patch_manifest m envs = Raise TypeError)
  /\ (forall kv, m = YMap kv -> assoc String.eqb "spec" kv = None ->
        patch_manifest m envs = Raise KeyError)
  /\ (forall kv sp, m = YMap kv -> assoc String.eqb "spec" kv = Some sp ->
        (forall spkv, sp <> YMap spkv) -> patch_manifest m envs = Raise TypeError)
  /\ (forall kv spkv, m = YMap kv -> assoc String.eqb "spec" kv = Some (YMap spkv) ->
        assoc String.eqb "metadata" kv = None ->
        patch_manifest m envs = Raise KeyError)
  /\ (forall kv spkv md, m = YMap kv ->
        assoc String.eqb "spec" kv = Some (YMap spkv) ->
        assoc String.eqb "metadata" kv = Some md ->
        (md = YNull \/ exists z, md = YInt z) ->
        patch_manifest m envs = Raise TypeError).
Proof.
  unfold patch_manifest.
  split; [|split; [|split; [|split]]].
  - intros H. destruct m as [| | | |kv]; try reflexivity.
    exfalso. exact (H kv eq_refl).
  - intros kv -> Hs. cbn -[String.eqb]. now rewrite Hs.
  - intros kv sp -> Hs Hn. cbn -[String.eqb]. rewrite Hs.
    destruct sp as [| | | |spkv]; try reflexivity.
    exfalso. exact (Hn spkv eq_refl).
  - intros kv spkv -> Hs Hm. cbn -[String.eqb]. rewrite Hs. cbn -[String.eqb].
    rewrite (assoc_dict_set_neq "spec" "metadata") by discriminate.
    now rewrite Hm.
  - intros kv spkv md -> Hs Hm Hmd. cbn -[String.eqb]. rewrite Hs.
    cbn -[String.eqb].
    rewrite (assoc_dict_set_neq "spec" "metadata") by discriminate.
    rewrite Hm. destruct Hmd as [->|[z ->]]; reflexivity.
Qed.

(** A [run_job] call that would register its template with an environment
    mapping, on a manifest the patch rejects, raises that error and leaves
    the workflow state as it was: no template, no step, no recorded
    outputs. *)
Theorem run_job_patch_error_keeps_state (cs : call_site) (m : yval)
  (sc fc : string) (step_name : option string)
  (env : option (list (string * value))) (own : bool) (st : wstate) (e : err)
  (Hfresh : get_template st (resolve_func_name cs step_name) = None)
  (Henv : env <> None)
  (Hp : patch_manifest m (generated_envs (job_env st env)) = Raise e) :
  run_job cs (Some m) sc fc step_name env own st = (st, Raise e).
Proof.
  unfold run_job. mon. rewrite Hfresh. mon.
  unfold generated_envs, job_env in Hp.
  destruct env as [e0|]; [|congruence].
  destruct (outputs_tmp st); cbn -[patch_manifest] in *; rewrite Hp; reflexivity.
Qed.

Lemma run_job_patch_error_keeps_state_witness :
  get_template ex_st0 (resolve_func_name ex_cs None) = None /\
  Some [("LR", VStr "0.1")] <> None /\
  patch_manifest (YMap [("kind", YStr "Job")])
    (generated_envs (job_env ex_st0 (Some [("LR", VStr "0.1")]))) = Raise KeyError /\
  run_job ex_cs (Some (YMap [("kind", YStr "Job")])) "a" "b" None
    (Some [("LR", VStr "0.1")]) true ex_st0 = (ex_st0, Raise KeyError).
Proof.
  split; [reflexivity|]. split; [discriminate|]. split; [reflexivity|].
  apply run_job_patch_error_keeps_state; [reflexivity|discriminate|reflexivity].
Defined.

(** ** Further properties: the recorded outputs *)

Lemma opt_str_eqb_eq (a b : option string) : opt_str_eqb a b = true <-> a = b.
Proof.
  destruct a as [x|], b as [y|]; cbn; split; intros H; try congruence.
  - apply String.eqb_eq in H. congruence.
  - injection H as ->. apply String.eqb_refl.
Qed.

Lemma assoc_dict_set_gen {K V} (eqb : K -> K -> bool)
  (Heq : forall a b, eqb a b = true <-> a = b) (k k' : K) (v : V)
  (l : list (K * V)) :
  assoc eqb k' (dict_set eqb k v l) =
    if eqb k' k then Some v else assoc eqb k' l.
Proof.
  induction l as [|[k0 v0] l IH]; cbn; [reflexivity|].
  destruct (eqb k k0) eqn:E; cbn.
  - apply Heq in E. subst k0. destruct (eqb k' k); reflexivity.
  - rewrite IH. destruct (eqb k' k0) eqn:E0; [|reflexivity].
    destruct (eqb k' k) eqn:E1; [|reflexivity].
    apply Heq in E0. apply Heq in E1. subst.
    rewrite (proj2 (Heq k0 k0) eq_refl) in E. discriminate.
Qed.

Lemma recorded_outputs (key : option string) (rets : list output)
  (so : list (option string * list output)) :
  assoc opt_str_eqb key (dict_set opt_str_eqb key rets so) = Some rets
  /\ (forall k, k <> key ->
        assoc opt_str_eqb k (dict_set opt_str_eqb key rets so) =
        assoc opt_str_eqb k so).
Proof.
  split.
  - rewrite assoc_dict_set_gen by exact opt_str_eqb_eq.
    now rewrite (proj2 (opt_str_eqb_eq key key) eq_refl).
  - intros k Hk. rewrite assoc_dict_set_gen by exact opt_str_eqb_eq.
    destruct (opt_str_eqb k key) eqn:E; [|reflexivity].
    apply opt_str_eqb_eq in E. contradiction.
Qed.

(** A successful [run_script] appends one step and returns the script
    result proxy of that step; [_steps_outputs] then maps the step's name
    to the returned proxies and keeps every other entry. *)
Theorem run_script_records_outputs (cs : call_site) (image : string)
  (command source step_name : option string) (st st' : wstate) (r : proxies)
  (Hrun : run_script cs image command source step_name st = (st', Ret r)) :
  exists s, steps st' = steps st ++ [s]
    /\ r = script_output (Some (s_name s)) (resolve_func_name cs step_name)
    /\ assoc opt_str_eqb (Some (s_name s)) (steps_outputs st') = Some r
    /\ (forall k, k <> Some (s_name s) ->
          assoc opt_str_eqb k (steps_outputs st') =
          assoc opt_str_eqb k (steps_outputs st)).
Proof.
  unfold run_script in Hrun. mon.
  destruct (get_template st (resolve_func_name cs step_name)) as [t|] eqn:E.
  - mon. step_tail Hrun. rewrite set_step_output_eq in Hrun. mon.
    injection Hrun as <- <-. exists s. split; [reflexivity|].
    split; [reflexivity|]. apply recorded_outputs.
  - destruct source as [src|]; mon; [|discriminate].
    rewrite (add_template_fresh (Script _ image command src) st E) in Hrun. mon.
    step_tail Hrun. rewrite set_step_output_eq in Hrun. mon.
    injection Hrun as <- <-. exists s. split; [reflexivity|].
    split; [reflexivity|]. apply recorded_outputs.
Qed.

Lemma run_script_records_outputs_witness :
  exists s, steps (fst (run_script ex_cs "python:3.8" None (Some "print(1)") None
                          ex_st0)) = steps ex_st0 ++ [s]
    /\ [mk_output KScript (Some "train-model-12") "train-model-12" "result"] =
       script_output (Some (s_name s)) (resolve_func_name ex_cs None)
    /\ assoc opt_str_eqb (Some (s_name s))
         (steps_outputs (fst (run_script ex_cs "python:3.8" None (Some "print(1)")
                                None ex_st0)))
       = Some [mk_output KScript (Some "train-model-12") "train-model-12" "result"]
    /\ (forall k, k <> Some (s_name s) ->
          assoc opt_str_eqb k
            (steps_outputs (fst (run_script ex_cs "python:3.8" None (Some "print(1)")
                                   None ex_st0))) =
          assoc opt_str_eqb k (steps_outputs ex_st0)).
Proof.
  apply (run_script_records_outputs ex_cs "python:3.8" None (Some "print(1)") None
           ex_st0). vm_compute. reflexivity.
Defined.

(** A successful [run_container] appends one step and returns the proxies
    built from the outputs declared by the template registered under the
    resolved name; [_steps_outputs] then maps the step's name to them and
    keeps every other entry. *)
Theorem run_container_records_outputs (cs : call_site) (image : string)
  (command : option string) (args output : option value)
  (input : option (list value)) (step_name : option string)
  (st st' : wstate) (r : proxies)
  (Hrun : run_container cs image command args output input step_name st =
          (st', Ret r)) :
  exists s t, steps st' = steps st ++ [s]
    /\ get_template st' (resolve_func_name cs step_name) = Some t
    /\ r = container_output (Some (s_name s)) (resolve_func_name cs step_name)
             (template_outputs t)
    /\ assoc opt_str_eqb (Some (s_name s)) (steps_outputs st') = Some r
    /\ (forall k, k <> Some (s_name s) ->
          assoc opt_str_eqb k (steps_outputs st') =
          assoc opt_str_eqb k (steps_outputs st)).
Proof.
  unfold run_container in Hrun. mon.
  rewrite run_container_prepare_eq in Hrun. cbv zeta in Hrun.
  destruct (get_template st (resolve_func_name cs step_name)) as [t|] eqn:E.
  - mon. step_tail Hrun. rewrite get_template_after_step, E in Hrun. mon.
    rewrite set_step_output_eq in Hrun. mon. injection Hrun as <- <-.
    exists s, t. split; [reflexivity|]. split; [exact E|].
    split; [reflexivity|]. apply recorded_outputs.
  - mon. step_tail Hrun.
    rewrite get_template_after_step, get_template_registered in Hrun by exact E.
    mon. rewrite set_step_output_eq in Hrun. mon. injection Hrun as <- <-.
    eexists s, _. split; [reflexivity|].
    split; [exact (assoc_app_fresh _ _ _ E)|].
    split; [reflexivity|]. apply recorded_outputs.
Qed.

Lemma run_container_records_outputs_witness :
  exists s t, steps (fst ex_run_art) = steps ex_st1 ++ [s]
    /\ get_template (fst ex_run_art) (resolve_func_name ex_cs None) = Some t
    /\ [mk_output KParameter (Some "train-model-12") "train-model-12" "output"] =
       container_output (Some (s_name s)) (resolve_func_name ex_cs None)
         (template_outputs t)
    /\ assoc opt_str_eqb (Some (s_name s)) (steps_outputs (fst ex_run_art)) =
       Some [mk_output KParameter (Some "train-model-12") "train-model-12" "output"]
    /\ (forall k, k <> Some (s_name s) ->
          assoc opt_str_eqb k (steps_outputs (fst ex_run_art)) =
          assoc opt_str_eqb k (steps_outputs ex_st1)).
Proof.
  apply (run_container_records_outputs ex_cs "alpine" None
           (Some (VList [VOut ex_art])) None None None ex_st1).
  vm_compute. reflexivity.
Defined.

(** A successful [run_job] appends one step but returns the job proxies
    built from, and records them under, the caller's [step_name] (None when
    it is not given), whatever name the step gets; every other entry of
    [_steps_outputs] is kept, so a later [run_job] with the same
    [step_name] overwrites the entry. *)
Theorem run_job_records_outputs_under_step_name (cs : call_site) (m : option yval)
  (sc fc : string) (step_name : option string)
  (env : option (list (string * value))) (own : bool) (st st' : wstate)
  (r : proxies)
  (Hrun : run_job cs m sc fc step_name env own st = (st', Ret r)) :
  (exists s, steps st' = steps st ++ [s])
  /\ r = job_output step_name (resolve_func_name cs step_name)
  /\ assoc opt_str_eqb step_name (steps_outputs st') = Some r
  /\ (forall k, k <> step_name ->
        assoc opt_str_eqb k (steps_outputs st') =
        assoc opt_str_eqb k (steps_outputs st)).
Proof.
  unfold run_job in Hrun. destruct m as [m|]; [|discriminate]. mon.
  destruct (get_template st (resolve_func_name cs step_name)) as [t|] eqn:E.
  - mon. step_tail Hrun. rewrite set_step_output_eq in Hrun. mon.
    injection Hrun as <- <-. split; [exists s; reflexivity|]. split; [reflexivity|].
    apply recorded_outputs.
  - mon. destruct (generate_parameters_run_job _) as [[envs ps] args] eqn:G.
    mon.
    destruct (match _ with Some _ => patch_manifest m envs | None => Ret m end)
      as [m'|e] eqn:P; [|discriminate].
    rewrite (add_template_fresh (Job _ args m' own sc fc) st E) in Hrun. mon.
    step_tail Hrun. rewrite set_step_output_eq in Hrun. mon.
    injection Hrun as <- <-. split; [exists s; reflexivity|]. split; [reflexivity|].
    apply recorded_outputs.
Qed.

Lemma run_job_records_outputs_under_step_name_witness :
  (exists s, steps (fst ex_run_job) = steps ex_st0 ++ [s])
  /\ job_output None "train-model-12" = job_output None (resolve_func_name ex_cs None)
  /\ assoc opt_str_eqb None (steps_outputs (fst ex_run_job)) =
     Some (job_output None "train-model-12")
  /\ (forall k, k <> None ->
        assoc opt_str_eqb k (steps_outputs (fst ex_run_job)) =
        assoc opt_str_eqb k (steps_outputs ex_st0)).
Proof.
  apply (run_job_records_outputs_under_step_name ex_cs (Some ex_manifest)
           "status.succeeded > 0" "status.failed > 3" None None true ex_st0).
  vm_compute. reflexivity.
Defined.

(** ** Further properties: the container template of a first call *)

Lemma run_container_fresh_templates (cs : call_site) (image : string)
  (command : option string) (args output : option value)
  (input : option (list value)) (step_name : option string) (st : wstate) :
  let fn := resolve_func_name cs step_name in
  let nargs := normalize_args args (outputs_tmp st) in
  get_template st fn = None ->
  templates (fst (run_container cs image command args output input step_name st))
  = templates st ++
      [(fn, Container fn image command nargs output
              (mirror_artifacts nargs (match input with Some i => i | None => [] end)))].
Proof.
  intros fn nargs E. unfold run_container. mon.
  rewrite run_container_prepare_eq. cbv zeta. fold fn. rewrite E. mon.
  match goal with |- context [update_step ?f ?a ?n ?l ?s] =>
    destruct (update_step_cases f a n l s) as [U|[s0 [U _]]]; rewrite U end;
    mon; [reflexivity|].
  rewrite get_template_after_step, get_template_registered by exact E. mon.
  rewrite set_step_output_eq. reflexivity.
Qed.

(** On a call that registers its template, the template's argument list is:
    with no [args], the staged list (None when nothing is staged, even an
    empty staged list otherwise); with a list whose first element is a list
    starting with a proxy, that inner list followed by the staged proxies,
    the other elements being dropped; with any other list, the list
    followed by the staged proxies; with a single non-list value, that value
    followed by the staged proxies. This holds whether or not the step is
    then accepted. *)
Theorem run_container_template_args (cs : call_site) (image : string)
  (command : option string) (args output : option value)
  (input : option (list value)) (step_name : option string) (st : wstate)
  (Hfresh : get_template st (resolve_func_name cs step_name) = None) :
  let staged := match outputs_tmp st with Some l => l | None => [] end in
  exists t,
    get_template (fst (run_container cs image command args output input step_name st))
      (resolve_func_name cs step_name) = Some t
    /\ container_args t =
       match args with
       | None => match outputs_tmp st with Some l => Some (VList l) | None => None end
       | Some (VList (VList ((VOut _ :: _) as inner) :: _)) =>
           Some (VList (inner ++ staged))
       | Some (VList l) => Some (VList (l ++ staged))
       | Some v => Some (VList (v :: staged))
       end.
Proof.
  cbv zeta. eexists. split.
  - unfold get_template.
    rewrite (run_container_fresh_templates cs image command args output input
               step_name st Hfresh).
    exact (assoc_app_fresh _ _ _ Hfresh).
  - cbn [container_args]. unfold normalize_args.
    destruct args as [v|]; [|destruct (outputs_tmp st); rewrite ?app_nil_r; reflexivity].
    destruct v as [s|z|l|o]; try (destruct (outputs_tmp st); rewrite ?app_nil_r; reflexivity).
    destruct l as [|v l]; try (destruct (outputs_tmp st); rewrite ?app_nil_r; reflexivity).
    destruct v as [s|z|l'|o]; try (destruct (outputs_tmp st); rewrite ?app_nil_r; reflexivity).
    all: destruct l' as [|v' l']; try (destruct (outputs_tmp st); rewrite ?app_nil_r; reflexivity).
    all: destruct v'; destruct (outputs_tmp st); rewrite ?app_nil_r; reflexivity.
Qed.

Lemma run_container_template_args_witness :
  get_template ex_st1 (resolve_func_name ex_cs None) = None /\
  exists t,
    get_template (fst (run_container ex_cs "alpine" None
                         (Some (VList [VList [VOut ex_pa]; VOut ex_pb])) None None
                         None ex_st1))
      (resolve_func_name ex_cs None) = Some t
    /\ container_args t = Some (VList ([VOut ex_pa] ++ [])).
Proof.
  split; [reflexivity|].
  exact (run_container_template_args ex_cs "alpine" None
           (Some (VList [VList [VOut ex_pa]; VOut ex_pb])) None None None ex_st1
           eq_refl).
Defined.

(** A [run_container] call that registers its template and whose step is
    then rejected by the step assembler raises [InvalidArgumentError]: the
    template stays registered (there is no rollback) while the step list,
    the staging area and the recorded outputs are unchanged. *)
Theorem run_container_failure_keeps_template (cs : call_site) (image : string)
  (command : option string) (args output : option value)
  (input : option (list value)) (step_name : option string)
  (st st' : wstate) (e : err)
  (Hfresh : get_template st (resolve_func_name cs step_name) = None)
  (Hrun : run_container cs image command args output input step_name st =
          (st', Raise e)) :
  let fn := resolve_func_name cs step_name in
  let nargs := normalize_args args (outputs_tmp st) in
  e = InvalidArgumentError
  /\ templates st' = templates st ++
       [(fn, Container fn image command nargs output
               (mirror_artifacts nargs (match input with Some i => i | None => [] end)))]
  /\ steps st' = steps st /\ outputs_tmp st' = outputs_tmp st
  /\ steps_outputs st' = steps_outputs st.
Proof.
  intros fn nargs.
  pose proof (run_container_fresh_templates cs image command args output input
                step_name st Hfresh) as Ht.
  rewrite Hrun in Ht. cbn [fst] in Ht.
  unfold run_container in Hrun. mon.
  rewrite run_container_prepare_eq in Hrun. cbv zeta in Hrun. rewrite Hfresh in Hrun.
  mon. set (st1 := set_templates _ st) in Hrun.
  destruct (update_step_cases (resolve_func_name cs step_name)
              (normalize_args args (outputs_tmp st)) step_name (cs_line cs) st1)
    as [U|[s [U _]]]; rewrite U in Hrun; mon.
  - injection Hrun as <- <-. split; [reflexivity|]. split; [exact Ht|].
    repeat split; reflexivity.
  - rewrite get_template_after_step in Hrun. unfold st1 in Hrun.
    rewrite get_template_registered in Hrun by exact Hfresh. mon.
    rewrite set_step_output_eq in Hrun. mon. discriminate.
Qed.

Lemma run_container_failure_keeps_template_witness :
  let st' := fst (run_container ex_cs "alpine" None (Some (VList [VOut ex_art]))
                    None None None ex_st0) in
  get_template ex_st0 (resolve_func_name ex_cs None) = None /\
  run_container ex_cs "alpine" None (Some (VList [VOut ex_art])) None None None
    ex_st0 = (st', Raise InvalidArgumentError) /\
  let fn := resolve_func_name ex_cs None in
  let nargs := normalize_args (Some (VList [VOut ex_art])) (outputs_tmp ex_st0) in
  InvalidArgumentError = InvalidArgumentError
  /\ templates st' = templates ex_st0 ++
       [(fn, Container fn "alpine" None nargs None (mirror_artifacts nargs []))]
  /\ steps st' = steps ex_st0 /\ outputs_tmp st' = outputs_tmp ex_st0
  /\ steps_outputs st' = steps_outputs ex_st0.
Proof.
  cbv zeta. split; [reflexivity|]. split; [vm_compute; reflexivity|].
  apply (run_container_failure_keeps_template ex_cs "alpine" None
           (Some (VList [VOut ex_art])) None None None ex_st0); [reflexivity|].
  vm_compute. reflexivity.
Defined.

(** ** Further properties: the SQLFlow step *)

(** A successful [sqlflow] call whose name is not yet registered registers
    one container template whose command is [sqlflow_command sql env
    log_file] (with the staged proxies as its arguments, if any) and appends
    one step of it. *)
Theorem sqlflow_registers_command (cs : call_site) (sql image : string)
  (env : option (list (string * string))) (log_file : option string)
  (st st' : wstate) (u : unit)
  (Hfresh : get_template st (resolve_func_name cs None) = None)
  (Hrun : sqlflow cs sql image env log_file st = (st', Ret u)) :
  let fn := resolve_func_name cs None in
  let nargs := normalize_args None (outputs_tmp st) in
  templates st' = templates st ++
    [(fn, Container fn image (Some (sqlflow_command sql env log_file)) nargs None
            (mirror_artifacts nargs []))]
  /\ exists s, steps st' = steps st ++ [s] /\ s_template s = fn.
Proof.
  intros fn nargs. unfold sqlflow in Hrun. unfold bind, ret in Hrun.
  destruct (run_container cs image (Some (sqlflow_command sql env log_file))
              None None None None st) as [st1 [r|e]] eqn:R; [|discriminate].
  injection Hrun as <- _.
  pose proof (run_container_fresh_templates cs image
                (Some (sqlflow_command sql env log_file)) None None None None st
                Hfresh) as Ht.
  rewrite R in Ht. split; [exact Ht|].
  destruct (run_container_effect _ _ _ _ _ _ _ _ _ _ R) as [_ [_ [s [Hs [Hst _]]]]].
  exists s. auto.
Qed.

Lemma sqlflow_registers_command_witness :
  get_template ex_st0 (resolve_func_name ex_cs None) = None /\
  sqlflow ex_cs "SELECT 1" "sqlflow/sqlflow" None None ex_st0 =
    (fst (sqlflow ex_cs "SELECT 1" "sqlflow/sqlflow" None None ex_st0), Ret tt) /\
  let fn := resolve_func_name ex_cs None in
  let nargs := normalize_args None (outputs_tmp ex_st0) in
  templates (fst (sqlflow ex_cs "SELECT 1" "sqlflow/sqlflow" None None ex_st0)) =
    templates ex_st0 ++
    [(fn, Container fn "sqlflow/sqlflow" (Some (sqlflow_command "SELECT 1" None None))
            nargs None (mirror_artifacts nargs []))]
  /\ exists s, steps (fst (sqlflow ex_cs "SELECT 1" "sqlflow/sqlflow" None None ex_st0))
                = steps ex_st0 ++ [s] /\ s_template s = fn.
Proof.
  split; [reflexivity|]. split; [vm_compute; reflexivity|].
  apply (sqlflow_registers_command ex_cs "SELECT 1" "sqlflow/sqlflow" None None
           ex_st0 _ tt); [reflexivity|vm_compute; reflexivity].
Defined.

(** Two successful [sqlflow] calls from one call site (a loop, say), the
    first registering the name: the second registers nothing, and the step
    it appends uses the template of the first, whose command carries the
    first SQL text; the second call's SQL text, image, environment and log
    file are not used. *)
Theorem sqlflow_repeat_keeps_first_command (cs : call_site)
  (sql1 sql2 image1 image2 : string)
  (env1 env2 : option (list (string * string))) (log1 log2 : option string)
  (st st1 st2 : wstate) (u1 u2 : unit)
  (Hfresh : get_template st (resolve_func_name cs None) = None)
  (Hrun1 : sqlflow cs sql1 image1 env1 log1 st = (st1, Ret u1))
  (Hrun2 : sqlflow cs sql2 image2 env2 log2 st1 = (st2, Ret u2)) :
  let fn := resolve_func_name cs None in
  (exists t, get_template st2 fn = Some t
             /\ container_command t = Some (sqlflow_command sql1 env1 log1))
  /\ templates st2 = templates st1
  /\ exists s, steps st2 = steps st1 ++ [s] /\ s_template s = fn.
Proof.
  intros fn. unfold sqlflow in Hrun1, Hrun2. unfold bind, ret in Hrun1, Hrun2.
  destruct (run_container cs image1 (Some (sqlflow_command sql1 env1 log1))
              None None None None st) as [sa [r|e]] eqn:R1; [|discriminate].
  injection Hrun1 as <- _.
  destruct (run_container cs image2 (Some (sqlflow_command sql2 env2 log2))
              None None None None sa) as [sb [r'|e]] eqn:R2; [|discriminate].
  injection Hrun2 as <- _.
  pose proof (run_container_fresh_templates cs image1
                (Some (sqlflow_command sql1 env1 log1)) None None None None st
                Hfresh) as Ht.
  rewrite R1 in Ht. cbn [fst] in Ht.
  assert (Hg : get_template sa fn =
               Some (Container fn image1 (Some (sqlflow_command sql1 env1 log1))
                       (normalize_args None (outputs_tmp st)) None
                       (mirror_artifacts (normalize_args None (outputs_tmp st)) [])))
    by (unfold get_template; rewrite Ht; exact (assoc_app_fresh _ _ _ Hfresh)).
  destruct (run_container_effect _ _ _ _ _ _ _ _ _ _ R2)
    as [_ [Hold [s [Hs [Hst _]]]]].
  assert (Htp : templates sb = templates sa) by (apply Hold; fold fn; congruence).
  split; [|split; [exact Htp|exists s; auto]].
  eexists. split.
  - unfold get_template. rewrite Htp. fold (get_template sa fn). exact Hg.
  - reflexivity.
Qed.

Lemma sqlflow_repeat_keeps_first_command_witness :
  let st1 := fst (sqlflow ex_cs "SELECT 1" "sqlflow/sqlflow" None None ex_st0) in
  let st2 := fst (sqlflow ex_cs "SELECT 2" "sqlflow/sqlflow" None None st1) in
  let fn := resolve_func_name ex_cs None in
  (exists t, get_template st2 fn = Some t
             /\ container_command t = Some (sqlflow_command "SELECT 1" None None))
  /\ templates st2 = templates st1
  /\ exists s, steps st2 = steps st1 ++ [s] /\ s_template s = fn.
Proof.
  cbv zeta.
  apply (sqlflow_repeat_keeps_first_command ex_cs "SELECT 1" "SELECT 2"
           "sqlflow/sqlflow" "sqlflow/sqlflow" None None None None ex_st0 _ _ tt tt);
    [reflexivity|vm_compute; reflexivity|vm_compute; reflexivity].
Defined.
